(** * Lighthouse mock-document generator: create_mock_documents.py

    A shallow embedding of the script that writes the three fixture PDFs
    (life insurance policy, last will and testament, state ID card) into
    the directory documents/, and the properties its specification states.

    The script is straight-line Python over three collaborators: the file
    system (os.makedirs, the file opened by the PDF canvas), the standard
    output (print, os.system) and the ReportLab layout engine.  The first
    two are modelled concretely; the layout engine is a parameter [render]
    of the development. *)

From Stdlib Require Import ZArith QArith Ascii String List DecimalString DecimalNat.
From stdpp Require Import gmap strings list fin_maps.

Local Open Scope string_scope.

(* ===================================================================== *)
(** * Python exceptions *)
(* ===================================================================== *)

Module Py.

(** The exception classes the script can meet.  All of them but
    [KeyboardInterrupt] derive from [Exception].  [OSError] stands for an
    OSError of no more special class, such as a write that finds the
    device full. *)
Inductive exc_class :=
  | ModuleNotFoundError
  | FileExistsError
  | FileNotFoundError
  | NotADirectoryError
  | IsADirectoryError
  | PermissionError
  | OSError
  | LibraryError
  | KeyboardInterrupt.

(** isinstance(e, Exception) *)
Definition is_Exception (c : exc_class) : bool :=
  match c with
  | KeyboardInterrupt => false
  | _ => true
  end.

(** An exception value: its class and str(e). *)
Record exn := Exn { exn_class : exc_class; exn_str : string }.

Definition catchable (e : exn) : bool := is_Exception (exn_class e).

(** OSError(errno, strerror, filename) and its str(). *)
Definition os_error (c : exc_class) (errno strerror path : string) : exn :=
  Exn c ("[Errno " +:+ errno +:+ "] " +:+ strerror +:+ ": '" +:+ path +:+ "'").

Definition file_exists_error := os_error FileExistsError "17" "File exists".
Definition file_not_found_error := os_error FileNotFoundError "2" "No such file or directory".
Definition not_a_directory_error := os_error NotADirectoryError "20" "Not a directory".
Definition is_a_directory_error := os_error IsADirectoryError "21" "Is a directory".
Definition permission_error := os_error PermissionError "13" "Permission denied".
Definition no_space_error := os_error OSError "28" "No space left on device".

Definition module_not_found (name : string) : exn :=
  Exn ModuleNotFoundError ("No module named '" +:+ name +:+ "'").

End Py.

(* ===================================================================== *)
(** * datetime *)
(* ===================================================================== *)

Module Datetime.

Inductive month :=
  | January | February | March | April | May | June
  | July | August | September | October | November | December.

(** datetime.datetime: the fields of the value datetime.now() returns. *)
Record datetime := {
  year : nat;
  month_of : month;
  day : nat;
  hour : nat;
  minute : nat;
  second : nat
}.

(** %B *)
Definition month_name (m : month) : string :=
  match m with
  | January => "January" | February => "February" | March => "March"
  | April => "April" | May => "May" | June => "June"
  | July => "July" | August => "August" | September => "September"
  | October => "October" | November => "November" | December => "December"
  end.

Definition decimal (n : nat) : string := NilEmpty.string_of_uint (Nat.to_uint n).

(** %d: day of the month, zero-padded to two digits. *)
Definition two_digits (n : nat) : string :=
  if Nat.ltb n 10 then "0" +:+ decimal n else decimal n.

(** strftime('%B %d, %Y') *)
Definition strftime_B_d_Y (d : datetime) : string :=
  month_name (month_of d) +:+ " " +:+ two_digits (day d) +:+ ", " +:+ decimal (year d).

End Datetime.

(* ===================================================================== *)
(** * The file system and the process's observable effects *)
(* ===================================================================== *)

Module OS.
Import Py.

(** A directory entry, with its write permission for the running user. *)
Inductive node :=
  | NDir (writable : bool)
  | NFile (writable : bool) (content : list Byte.byte).

(** Paths are relative to the working directory, which always exists. *)
Record filesystem := FS {
  cwd_writable : bool;
  entries : gmap string node
}.

Fixpoint has_slash (p : string) : bool :=
  match p with
  | EmptyString => false
  | String c r => if Ascii.eqb c "/" then true else has_slash r
  end.

(** posixpath.dirname on a relative path: what precedes the last slash. *)
Fixpoint dirname (p : string) : string :=
  match p with
  | EmptyString => EmptyString
  | String c r => if has_slash r then String c (dirname r) else EmptyString
  end.

(** The directory a path component is resolved in; the empty name is the
    working directory. *)
Definition lookup_dir (f : filesystem) (d : string) : option node :=
  if decide (d = EmptyString) then Some (NDir (cwd_writable f))
  else entries f !! d.

Definition set_entry (p : string) (n : node) (f : filesystem) : filesystem :=
  FS (cwd_writable f) (<[p := n]> (entries f)).

(** os.mkdir(path) *)
Definition mkdir (p : string) (f : filesystem) : exn + filesystem :=
  match lookup_dir f (dirname p) with
  | None => inl (file_not_found_error p)
  | Some (NFile _ _) => inl (not_a_directory_error p)
  | Some (NDir dw) =>
      match entries f !! p with
      | Some _ => inl (file_exists_error p)
      | None => if dw then inr (set_entry p (NDir true) f)
                else inl (permission_error p)
      end
  end.

Definition isdir (p : string) (f : filesystem) : bool :=
  match entries f !! p with
  | Some (NDir _) => true
  | _ => false
  end.

(** os.makedirs(name, exist_ok=True) for a name of one component: mkdir,
    and an OSError is swallowed when the name is a directory already. *)
Definition makedirs_exist_ok (p : string) (f : filesystem) : exn + filesystem :=
  match mkdir p f with
  | inr f' => inr f'
  | inl e => if isdir p f then inr f else inl e
  end.

(** open(path, 'wb'): the file is created, or truncated if it exists.  An
    open that is refused leaves the file system as it was. *)
Definition open_wb (p : string) (f : filesystem) : exn + filesystem :=
  match lookup_dir f (dirname p) with
  | None => inl (file_not_found_error p)
  | Some (NFile _ _) => inl (not_a_directory_error p)
  | Some (NDir dw) =>
      match entries f !! p with
      | Some (NDir _) => inl (is_a_directory_error p)
      | Some (NFile fw _) =>
          if fw then inr (set_entry p (NFile fw []) f)
          else inl (permission_error p)
      | None =>
          if dw then inr (set_entry p (NFile true []) f)
          else inl (permission_error p)
      end
  end.

(** The bytes [data] reach the file at [p], which is open for writing. *)
Definition put_bytes (p : string) (data : list Byte.byte) (f : filesystem)
  : filesystem :=
  match entries f !! p with
  | Some (NFile fw _) => set_entry p (NFile fw data) f
  | _ => f
  end.

(** open(path, 'wb') followed by writes that put [data] in the file: all
    of the bytes handed to write, or the part of them that was written
    when a write raised.  Only the open can refuse; what a write that
    fails half-way leaves behind is a file holding [data]. *)
Definition write_file (p : string) (data : list Byte.byte) (f : filesystem)
  : exn + filesystem :=
  match open_wb p f with
  | inl e => inl e
  | inr f' => inr (put_bytes p data f')
  end.

(** The names in directory [d]. *)
Definition listdir (d : string) (f : filesystem) : gmap string node :=
  filter (fun kv => dirname kv.1 = d) (entries f).

(** What the process does to the outside, in order.  [EvWrite p data]: the
    file at [p] was opened for writing and [data] reached it; [EvPrint]:
    a call of print; [EvSystem c]: the shell ran [c] as a subprocess, which
    shares the standard output of the script (what the subprocess writes
    there, and where it lands among the buffered lines of the script, is
    not recorded). *)
Inductive event :=
  | EvMkdir (path : string)
  | EvWrite (path : string) (data : list Byte.byte)
  | EvPrint (line : string)
  | EvSystem (command : string).

(** The state of the outside world during a run. *)
Record world := World {
  fs : filesystem;
  clock : Datetime.datetime;
  reportlab_installed : bool;
  trace : list event
}.

Definition emit (e : event) (w : world) : world :=
  World (fs w) (clock w) (reportlab_installed w) (trace w ++ [e]).

Definition set_fs (f : filesystem) (w : world) : world :=
  World f (clock w) (reportlab_installed w) (trace w).

(** How the interpreter leaves: it runs off the end of the script, or an
    exception reaches the top of the stack and a traceback is printed. *)
Inductive outcome :=
  | Finished
  | Uncaught (e : exn).

Definition exit_status (o : outcome) : Z :=
  match o with
  | Finished => 0
  | Uncaught _ => 1
  end.

End OS.

(* ===================================================================== *)
(** * Computations: state, and exceptions that keep the state *)
(* ===================================================================== *)

Module Eff.
Import Py OS.

Definition M (A : Type) : Type := world -> world * (exn + A).

Definition ret {A} (a : A) : M A := fun w => (w, inr a).

Definition bind {A B} (m : M A) (k : A -> M B) : M B :=
  fun w =>
    match m w with
    | (w', inr a) => k a w'
    | (w', inl e) => (w', inl e)
    end.

Definition raise {A} (e : exn) : M A := fun w => (w, inl e).

(** try: body / except Exception as e: handler e *)
Definition try_except_Exception {A} (body : M A) (handler : exn -> M A) : M A :=
  fun w =>
    match body w with
    | (w', inr a) => (w', inr a)
    | (w', inl e) => if catchable e then handler e w' else (w', inl e)
    end.

End Eff.

#[global] Instance M_ret : MRet Eff.M := @Eff.ret.
#[global] Instance M_bind : MBind Eff.M := fun A B k m => Eff.bind m k.

(* ===================================================================== *)
(** * The layout library: the values the script hands to ReportLab *)
(* ===================================================================== *)

Module ReportLab.
Import Py.

Inductive color := black | lightgrey | white | blue.
Inductive alignment := TA_LEFT | TA_CENTER.
Inductive pagesize := A4 | letter.

(** The entries of getSampleStyleSheet() the script looks up. *)
Inductive sample_style := Heading1 | Heading2 | Normal.

(** reportlab.lib.units.inch *)
Definition inch : Q := 72 # 1.

(** ParagraphStyle(name, parent=..., fontSize=..., ...): a keyword the call
    leaves out is [None]. *)
Record ParagraphStyle := {
  style_name : string;
  parent : sample_style;
  fontSize : Z;
  spaceAfter : Z;
  align : alignment;
  textColor : option color;
  firstLineIndent : option Z;
  fontWeight : option string
}.

Definition cell : Type := Z * Z.

(** The commands of a TableStyle. *)
Inductive table_command :=
  | BACKGROUND (start stop : cell) (c : color)
  | TEXTCOLOR (start stop : cell) (c : color)
  | ALIGN (start stop : cell) (a : string)
  | FONTNAME (start stop : cell) (font : string)
  | FONTSIZE (start stop : cell) (size : Z)
  | BOTTOMPADDING (start stop : cell) (pad : Z)
  | GRID (start stop : cell) (width : Q) (c : color).

(** The flowables a story is made of. *)
Inductive flowable :=
  | Paragraph (text : string) (style : ParagraphStyle)
  | Spacer (width height : Z)
  | Table (data : list (list string)) (colWidths : list Q)
          (style : list table_command).

(** SimpleDocTemplate(filename, pagesize=...) *)
Record SimpleDocTemplate := {
  filename : string;
  page : pagesize
}.

(** How doc.build fails: the exception it raises, and what its save had
    done to the file by then.  [None]: the exception came before the file
    was opened (a layout error); [Some part]: the file had been opened,
    hence created or truncated, and the bytes [part] had been written when
    a write raised (a full device, an input/output error). *)
Record build_failure := Failed {
  raised : exn;
  written : option (list Byte.byte)
}.

(** What the script needs of the layout engine: from the clock, the
    document template and the story to the bytes of the PDF that doc.build
    saves, or the way doc.build fails. *)
Definition renderer : Type :=
  Datetime.datetime -> SimpleDocTemplate -> list flowable ->
  build_failure + list Byte.byte.

End ReportLab.

(* ===================================================================== *)
(** * create_mock_documents.py *)
(* ===================================================================== *)

Module Script.
Import Py OS Eff ReportLab.

(** The double quote character and the newline, for the literals that
    hold them. *)
Definition dquote : string := String "034" EmptyString.
Definition newline : string := String "010" EmptyString.

(** print(line) *)
Definition print (line : string) : M unit :=
  fun w => (emit (EvPrint line) w, inr tt).

(** os.system(command): the shell runs the command as a subprocess and
    the script ignores the status it returns.  The call is recorded; the
    listing the subprocess writes to the shared standard output is not
    (see [event]). *)
Definition os_system (command : string) : M unit :=
  fun w => (emit (EvSystem command) w, inr tt).

(** datetime.now() *)
Definition datetime_now : M Datetime.datetime :=
  fun w => (w, inr (clock w)).

(** Lines 6 to 14: the imports of reportlab. *)
Definition import_reportlab : M unit :=
  fun w =>
    if reportlab_installed w then (w, inr tt)
    else (w, inl (module_not_found "reportlab")).

(** Line 20: os.makedirs('documents', exist_ok=True).  [EvMkdir] is
    recorded when the directory is really created. *)
Definition os_makedirs_exist_ok (name : string) : M unit :=
  fun w =>
    match makedirs_exist_ok name (fs w) with
    | inl e => (w, inl e)
    | inr f' =>
        if isdir name (fs w) then (set_fs f' w, inr tt)
        else (emit (EvMkdir name) (set_fs f' w), inr tt)
    end.

Section Builders.

(** The layout engine: everything ReportLab does with the values a
    builder hands to it, from the construction of the flowables to the
    bytes of the finished canvas, and whether a write of its save gives
    up.  It may read the clock (a PDF carries its creation date); it does
    not read the file system. *)
Variable render : renderer.

(** doc.build(story): lay the story out, then save the canvas to the
    template's file name.  A layout error leaves the world as it was, and
    so does an open that is refused.  Once the file is open it has been
    created or truncated: a save that raises in a write leaves the part
    written so far in the file, and the exception goes to the caller. *)
Definition doc_build (doc : SimpleDocTemplate) (story : list flowable) : M unit :=
  fun w =>
    match render (clock w) doc story with
    | inl (Failed e None) => (w, inl e)
    | inl (Failed e (Some part)) =>
        match write_file (filename doc) part (fs w) with
        | inl e' => (w, inl e')
        | inr f' => (emit (EvWrite (filename doc) part) (set_fs f' w), inl e)
        end
    | inr pdf =>
        match write_file (filename doc) pdf (fs w) with
        | inl e => (w, inl e)
        | inr f' => (emit (EvWrite (filename doc) pdf) (set_fs f' w), inr tt)
        end
    end.

(** ** create_life_insurance_policy *)

Definition life_filename : string := "documents/Life_Insurance_Policy.pdf".

Definition life_title_style : ParagraphStyle :=
  {| style_name := "CustomTitle"; parent := Heading1; fontSize := 24;
     spaceAfter := 30; align := TA_CENTER; textColor := Some blue;
     firstLineIndent := None; fontWeight := None |}.

Definition life_header_style : ParagraphStyle :=
  {| style_name := "Header"; parent := Heading2; fontSize := 16;
     spaceAfter := 12; align := TA_CENTER; textColor := None;
     firstLineIndent := None; fontWeight := None |}.

Definition life_normal_style : ParagraphStyle :=
  {| style_name := "Normal"; parent := Normal; fontSize := 11;
     spaceAfter := 6; align := TA_LEFT; textColor := None;
     firstLineIndent := None; fontWeight := None |}.

Definition watermark_style : ParagraphStyle :=
  {| style_name := "Watermark"; parent := Normal; fontSize := 36;
     spaceAfter := 0; align := TA_CENTER; textColor := Some lightgrey;
     firstLineIndent := None; fontWeight := None |}.

Definition policy_data (today : Datetime.datetime) : list (list string) :=
  [ ["<b>Policy Holder:</b>"; "John Robert Smith"];
    ["<b>Policy Number:</b>"; "LH-99887766"];
    ["<b>Benefit Amount:</b>"; "$500,000.00"];
    ["<b>Primary Beneficiary:</b>"; "Sarah Smith-Jones"];
    ["<b>Policy Date:</b>"; Datetime.strftime_B_d_Y today];
    ["<b>Policy Type:</b>"; "Whole Life Insurance"];
    ["<b>Monthly Premium:</b>"; "$275.00"];
    ["<b>Cash Value:</b>"; "$45,230.50"] ].

Definition policy_table_style : list table_command :=
  [ BACKGROUND (0, 0) (-1, 0) lightgrey;
    TEXTCOLOR (0, 0) (-1, -1) black;
    ALIGN (0, 0) (-1, -1) "CENTER";
    FONTNAME (0, 0) (-1, -1) "Helvetica";
    FONTSIZE (0, 0) (-1, -1) 11;
    BOTTOMPADDING (0, 0) (-1, 0) 12;
    BACKGROUND (0, 1) (-1, -1) white;
    GRID (0, 0) (-1, -1) (1 # 1) black ]%Z.

Definition terms_text : string := "
    This policy is a permanent life insurance policy providing coverage for the entire lifetime of the insured person.
    The policy includes a death benefit of $500,000.00 payable to the named primary beneficiary, Sarah Smith-Jones.

    Premiums are due on the 1st of each month and can be paid through various methods including electronic funds transfer,
    credit card, or automatic withdrawal from a bank account.

    The policy accumulates cash value over time, which can be borrowed against or surrendered if needed.
    For more information about policy benefits and terms, please contact our customer service department.
    ".

Definition life_story (today : Datetime.datetime) : list flowable :=
  [ Paragraph "Legacy Life & Casualty" life_header_style;
    Paragraph "Permanent Life Policy" life_header_style;
    Spacer 1 20;
    Table (policy_data today) [(2 # 1) * inch; (3 # 1) * inch]%Q policy_table_style;
    Spacer 1 30;
    Paragraph "<b>Policy Terms and Conditions:</b>" life_header_style;
    Paragraph terms_text life_normal_style;
    Spacer 1 30;
    Paragraph "Watermark: TEST DOCUMENT" watermark_style ].

Definition create_life_insurance_policy : M unit :=
  let filename := life_filename in
  let doc := {| filename := filename; page := A4 |} in
  today ← datetime_now;
  doc_build doc (life_story today);;
  print ("Created: " +:+ filename).

(** ** create_will_and_testament *)

Definition will_filename : string := "documents/Last_Will_and_Testament.pdf".

Definition will_title_style : ParagraphStyle :=
  {| style_name := "WillTitle"; parent := Heading1; fontSize := 28;
     spaceAfter := 20; align := TA_CENTER; textColor := Some black;
     firstLineIndent := None; fontWeight := None |}.

Definition will_normal_style : ParagraphStyle :=
  {| style_name := "WillNormal"; parent := Normal; fontSize := 12;
     spaceAfter := 8; align := TA_LEFT; textColor := None;
     firstLineIndent := Some 20%Z; fontWeight := None |}.

Definition clause_style : ParagraphStyle :=
  {| style_name := "ClauseStyle"; parent := Normal; fontSize := 12;
     spaceAfter := 12; align := TA_LEFT; textColor := None;
     firstLineIndent := Some 20%Z; fontWeight := None |}.

Definition signature_lines : list string :=
  [ "_______________________________________";
    "John Robert Smith";
    "Testator";
    "";
    "Date: _______________";
    "";
    "_______________________________________";
    "Sarah Smith-Jones";
    "Witness";
    "";
    "Date: _______________";
    "";
    "_______________________________________";
    "Notary Public";
    "My Commission Expires: _______________" ].

Definition will_story : list flowable :=
  [ Paragraph "LAST WILL AND TESTAMENT" will_title_style;
    Paragraph "OF JOHN ROBERT SMITH" will_title_style;
    Spacer 1 30;
    Paragraph "<b>EXECUTOR:</b>" will_normal_style;
    Paragraph "I hereby appoint my daughter, Sarah Smith-Jones, as the Executor of this Will." will_normal_style;
    Spacer 1 20;
    Paragraph "<b>CLAUSE 1: REAL PROPERTY</b>" will_normal_style;
    Paragraph "I give, devise, and bequeath all my real property located at 123 Compassion Way, Anytown, ST 12345, to my daughter, Sarah Smith-Jones, absolutely and without conditions." clause_style;
    Spacer 1 15;
    Paragraph "<b>CLAUSE 2: PERSONAL PROPERTY</b>" will_normal_style;
    Paragraph "I give, devise, and bequeath all my personal property, including but not limited to furniture, clothing, jewelry, and household items, to my daughter, Sarah Smith-Jones." clause_style;
    Spacer 1 15;
    Paragraph "<b>CLAUSE 3: FINANCIAL ASSETS</b>" will_normal_style;
    Paragraph "I give, devise, and bequeath all my financial assets, including bank accounts, investments, and retirement accounts, to be divided equally among my children." clause_style;
    Spacer 1 15;
    Paragraph "<b>CLAUSE 4: FUNERAL ARRANGEMENTS</b>" will_normal_style;
    Paragraph "It is my wish that my remains be cremated and that my ashes be scattered in the Pacific Ocean at a location to be determined by my Executor." clause_style;
    Spacer 1 30;
    Paragraph "<b>SIGNATURE</b>" will_normal_style ]
  ++ map (fun line => Paragraph line will_normal_style) signature_lines.

Definition create_will_and_testament : M unit :=
  let filename := will_filename in
  let doc := {| filename := filename; page := A4 |} in
  doc_build doc will_story;;
  print ("Created: " +:+ filename).

(** ** create_state_id *)

Definition id_filename : string := "documents/State_ID_Card.pdf".

Definition id_header_style : ParagraphStyle :=
  {| style_name := "IDHeader"; parent := Heading1; fontSize := 20;
     spaceAfter := 10; align := TA_CENTER; textColor := Some black;
     firstLineIndent := None; fontWeight := None |}.

Definition label_style : ParagraphStyle :=
  {| style_name := "IDLabel"; parent := Normal; fontSize := 10;
     spaceAfter := 2; align := TA_LEFT; textColor := None;
     firstLineIndent := None; fontWeight := None |}.

Definition value_style : ParagraphStyle :=
  {| style_name := "IDValue"; parent := Normal; fontSize := 12;
     spaceAfter := 8; align := TA_LEFT; textColor := None;
     firstLineIndent := None; fontWeight := Some "bold" |}.

Definition security_style : ParagraphStyle :=
  {| style_name := "Security"; parent := Normal; fontSize := 9;
     spaceAfter := 4; align := TA_CENTER; textColor := Some lightgrey;
     firstLineIndent := None; fontWeight := None |}.

Definition id_data : list (list string) :=
  [ ["<b>CLASS:</b>"; "C"; "<b>RESTRICTIONS:</b>"; "None"];
    ["<b>SEX:</b>"; "Male"; "<b>HEIGHT:</b>"; "5'10" +:+ dquote];
    ["<b>EYES:</b>"; "Blue"; "<b>WEIGHT:</b>"; "185 lbs"];
    ["<b>HAIR:</b>"; "Brown"; "<b>ORGAN DONOR:</b>"; "YES"];
    ["<b>NAME:</b>"; "John R. Smith"; ""];
    ["<b>DOB:</b>"; "05/12/1955"; ""];
    ["<b>ADDRESS:</b>"; "123 Compassion Way"; ""];
    [""; "Anytown, ST 12345"; ""];
    ["<b>ISSUE DATE:</b>"; "01/10/2020"; "<b>EXPIRES:</b>"; "01/10/2025"] ].

Definition id_table_style : list table_command :=
  [ BACKGROUND (0, 0) (-1, 0) lightgrey;
    TEXTCOLOR (0, 0) (-1, -1) black;
    ALIGN (0, 0) (-1, -1) "LEFT";
    FONTNAME (0, 0) (-1, -1) "Helvetica";
    FONTSIZE (0, 0) (-1, -1) 11;
    BOTTOMPADDING (0, 0) (-1, 0) 5;
    BACKGROUND (0, 1) (-1, -1) white;
    GRID (0, 0) (-1, -1) (1 # 2) black ]%Z.

Definition id_story : list flowable :=
  [ Paragraph "State of Example" id_header_style;
    Paragraph "Driver License" id_header_style;
    Spacer 1 20;
    Table id_data
          [(3 # 2) * inch; (3 # 2) * inch; (3 # 2) * inch; (3 # 2) * inch]%Q
          id_table_style;
    Spacer 1 20;
    Paragraph "<b>DOCUMENT NUMBER:</b> EX-1987654321" value_style;
    Paragraph "<b>ISSUING AUTHORITY:</b> State of Example Department of Motor Vehicles" value_style;
    Spacer 1 30;
    Paragraph "This document contains security features to prevent counterfeiting." security_style;
    Paragraph "Unauthorized reproduction is a criminal offense." security_style ].

Definition create_state_id : M unit :=
  let filename := id_filename in
  let doc := {| filename := filename; page := A4 |} in
  doc_build doc id_story;;
  print ("Created: " +:+ filename).

(** ** The three document kinds, in the order the script builds them *)

Inductive kind := LifeInsurance | WillAndTestament | StateID.

#[global] Instance kind_eq_dec : EqDecision kind.
Proof. solve_decision. Defined.

Definition builder (k : kind) : M unit :=
  match k with
  | LifeInsurance => create_life_insurance_policy
  | WillAndTestament => create_will_and_testament
  | StateID => create_state_id
  end.

Definition output_path (k : kind) : string :=
  match k with
  | LifeInsurance => life_filename
  | WillAndTestament => will_filename
  | StateID => id_filename
  end.

(** The story builder [k] hands to doc.build when the clock reads [t]. *)
Definition story_of (k : kind) (t : Datetime.datetime) : list flowable :=
  match k with
  | LifeInsurance => life_story t
  | WillAndTestament => will_story
  | StateID => id_story
  end.

Definition template_of (k : kind) : SimpleDocTemplate :=
  {| filename := output_path k; page := A4 |}.

(** ** The main block (lines 299 to 313) *)

Definition except_handler (e : exn) : M unit :=
  print ("Error creating documents: " +:+ exn_str e);;
  print "Please ensure ReportLab is installed: pip install reportlab".

Definition try_body : M unit :=
  create_life_insurance_policy;;
  create_will_and_testament;;
  create_state_id;;
  print (newline +:+ "Documents created successfully!");;
  print "Documents directory:";;
  os_system "ls -la documents/".

Definition main : M unit :=
  print "Creating mock documents for Lighthouse Smart Vault...";;
  try_except_Exception try_body except_handler.

(** The module body, top to bottom; [name_is_main] is __name__ == '__main__'. *)
Definition module_body (name_is_main : bool) : M unit :=
  import_reportlab;;
  os_makedirs_exist_ok "documents";;
  if name_is_main then main else mret tt.

(** python create_mock_documents.py *)
Definition run (w : world) : world * outcome :=
  match module_body true w with
  | (w', inr _) => (w', Finished)
  | (w', inl e) => (w', Uncaught e)
  end.

End Builders.

(** ** Running the script on a concrete machine *)

Definition pdf_header : list Byte.byte := [Byte.x25; Byte.x50; Byte.x44; Byte.x46].

Definition bytes_of_string (s : string) : list Byte.byte :=
  map byte_of_ascii (list_ascii_of_string s).

Definition flowable_text (f : flowable) : string :=
  match f with
  | Paragraph t _ => t
  | Spacer _ _ => ""
  | Table rows _ _ => String.concat "|" (map (String.concat ",") rows)
  end.

(** A toy layout engine: the PDF magic number followed by the text of the
    story.  It stands in for ReportLab where a property is run on a
    concrete input. *)
Definition toy_render : renderer := fun t doc story =>
  inr (pdf_header ++ bytes_of_string (String.concat newline (map flowable_text story)))%list.

(** A layout engine that rejects the table of the ID card (rows of unequal
    length) and lays out everything else. *)
Definition ragged_table : exn :=
  Exn LibraryError "ID card table: not enough data in row 4".

Definition strict_render : renderer := fun t doc story =>
  if decide (filename doc = id_filename) then inl (Failed ragged_table None)
  else toy_render t doc story.

(** A layout engine whose save of the will finds the device full when the
    first four bytes are written. *)
Definition full_disk_render : renderer := fun t doc story =>
  if decide (filename doc = will_filename)
  then inl (Failed (no_space_error will_filename) (Some pdf_header))
  else toy_render t doc story.

End Script.

(* ===================================================================== *)
(** * Reasoning about runs *)
(* ===================================================================== *)

Module Runs.
Import Py OS Eff ReportLab Script.
Local Open Scope list_scope.

(** The builders of [ks], one after another. *)
Fixpoint run_builders
    (render : renderer)
    (ks : list kind) : M unit :=
  match ks with
  | [] => mret tt
  | k :: rest => builder render k;; run_builders render rest
  end.

(** The order of the calls in the try block. *)
Definition build_sequence : list kind := [LifeInsurance; WillAndTestament; StateID].

(** What the module executes before it enters the try block. *)
Definition prelude : M unit :=
  import_reportlab;;
  os_makedirs_exist_ok "documents";;
  print "Creating mock documents for Lighthouse Smart Vault...".

(** What the try block executes after the third builder. *)
Definition report : M unit :=
  print (newline +:+ "Documents created successfully!");;
  print "Documents directory:";;
  os_system "ls -la documents/".

(** The first builder of [ks] that raises, with its exception. *)
Fixpoint first_failure
    (render : renderer)
    (ks : list kind) (w : world) : option (kind * exn) :=
  match ks with
  | [] => None
  | k :: rest =>
      match builder render k w with
      | (_, inl e) => Some (k, e)
      | (w', inr _) => first_failure render rest w'
      end
  end.

(** The events of one successful build. *)
Definition build_events (k : kind) (pdf : list Byte.byte) : list event :=
  [EvWrite (output_path k) pdf; EvPrint ("Created: " +:+ output_path k)].

Definition report_events : list event :=
  [ EvPrint (newline +:+ "Documents created successfully!");
    EvPrint "Documents directory:";
    EvSystem "ls -la documents/" ].

Definition handler_events (e : exn) : list event :=
  [ EvPrint ("Error creating documents: " +:+ exn_str e);
    EvPrint "Please ensure ReportLab is installed: pip install reportlab" ].

(** The target of builder [k] can be written: documents/ is a writable
    directory and the path is free or holds a writable file. *)
Definition writable_target (k : kind) (f : filesystem) : bool :=
  match entries f !! "documents" with
  | Some (NDir true) =>
      match entries f !! output_path k with
      | None | Some (NFile true _) => true
      | _ => false
      end
  | _ => false
  end.

(** Every entry below a directory has that directory. *)
Definition well_formed (f : filesystem) : Prop :=
  map_Forall (fun p _ => dirname p = "" \/ isdir (dirname p) f = true) (entries f).

Definition set_clock (t : Datetime.datetime) (w : world) : world :=
  World (fs w) t (reportlab_installed w) (trace w).

(** The world after the builds [done] (kind and rendered bytes) succeeded
    one after another from [w]. *)
Definition built (done : list (kind * list Byte.byte)) (w : world) : world :=
  World
    (foldl (fun f kp => set_entry (output_path kp.1) (NFile true kp.2) f) (fs w) done)
    (clock w) (reportlab_installed w)
    (trace w ++ flat_map (fun kp => build_events kp.1 kp.2) done).

(** What a save that raised in a write leaves of the file of kind [k]:
    nothing when the file was never opened, the part written otherwise. *)
Definition crash_events (k : kind) (left : option (list Byte.byte)) : list event :=
  match left with
  | None => []
  | Some part => [EvWrite (output_path k) part]
  end.

(** The world a failing build of kind [k] leaves when called in [w]. *)
Definition crashed (k : kind) (left : option (list Byte.byte)) (w : world) : world :=
  match left with
  | None => w
  | Some part =>
      World (set_entry (output_path k) (NFile true part) (fs w)) (clock w)
        (reportlab_installed w) (trace w ++ crash_events k left)
  end.

(** The layout engine turns the story of [kp.1] into the bytes [kp.2]. *)
Definition rendered
    (render : renderer)
    (w : world) (kp : kind * list Byte.byte) : Prop :=
  render (clock w) (template_of kp.1) (story_of kp.1 (clock w)) = inr kp.2.

(** Events by what they report. *)
Definition is_error_report (ev : event) : bool :=
  match ev with
  | EvPrint s => String.prefix "Error creating documents: " s
  | _ => false
  end.

Definition is_success_report (ev : event) : bool :=
  match ev with
  | EvPrint s => String.eqb s (newline +:+ "Documents created successfully!")
  | _ => false
  end.

Definition is_created_line (ev : event) : bool :=
  match ev with
  | EvPrint s => String.prefix "Created: " s
  | _ => false
  end.

Definition is_mkdir (ev : event) : bool :=
  match ev with
  | EvMkdir _ => true
  | _ => false
  end.

Definition is_write (ev : event) : bool :=
  match ev with
  | EvWrite _ _ => true
  | _ => false
  end.

Definition is_system (ev : event) : bool :=
  match ev with
  | EvSystem _ => true
  | _ => false
  end.

(** [ev] is one of the two events of a build of kind [k]. *)
Definition event_of (k : kind) (ev : event) : Prop :=
  (exists pdf, ev = EvWrite (output_path k) pdf) \/
  ev = EvPrint ("Created: " +:+ output_path k).

(** ** Concrete machines *)

Definition nov_3 : Datetime.datetime :=
  {| Datetime.year := 2026; Datetime.month_of := Datetime.November;
     Datetime.day := 3; Datetime.hour := 10; Datetime.minute := 2;
     Datetime.second := 0 |}.

Definition nov_4 : Datetime.datetime :=
  {| Datetime.year := 2026; Datetime.month_of := Datetime.November;
     Datetime.day := 4; Datetime.hour := 9; Datetime.minute := 30;
     Datetime.second := 0 |}.

(** A writable working directory with no documents/ in it. *)
Definition w_fresh : world := World (FS true ∅) nov_3 true [].

(** documents/ exists, writable and empty. *)
Definition w_ready : world :=
  World (FS true {[ "documents" := NDir true ]}) nov_3 true [].

(** documents/ exists and is empty, but is not writable. *)
Definition w_readonly : world :=
  World (FS true {[ "documents" := NDir false ]}) nov_3 true [].

(** The name documents is taken by a regular file. *)
Definition w_blocked : world :=
  World (FS true {[ "documents" := NFile true [] ]}) nov_3 true [].

(** ** Further vocabulary for runs *)

(** The lines the script handed to print, in order.  What the listing
    subprocess writes to the same standard output is not among them. *)
Definition printed (tr : list event) : list string :=
  omap (fun ev => match ev with EvPrint s => Some s | _ => None end) tr.

Definition created_line (k : kind) : string := "Created: " +:+ output_path k.

(** The paths the script names: the directory and the three files. *)
Definition script_paths : list string :=
  "documents" :: map output_path build_sequence.

(** The file of kind [k] exists, can be written, and lies in a directory. *)
Definition overwritable (k : kind) (f : filesystem) : bool :=
  match entries f !! "documents", entries f !! output_path k with
  | Some (NDir _), Some (NFile true _) => true
  | _, _ => false
  end.

(** A machine like [w_fresh] on which ReportLab is not installed. *)
Definition w_no_reportlab : world := World (FS true ∅) nov_3 false [].

(** A layout engine interrupted from the keyboard while it lays out the
    will. *)
Definition interrupted_render : renderer := fun t doc story =>
  if decide (filename doc = will_filename)
  then inl (Failed (Exn KeyboardInterrupt "") None)
  else toy_render t doc story.

Ltac unfold_m :=
  unfold try_body, main, module_body, run, prelude, report, except_handler,
    create_life_insurance_policy, create_will_and_testament, create_state_id,
    try_except_Exception, doc_build, print, os_system, datetime_now,
    import_reportlab, os_makedirs_exist_ok,
    mbind, M_bind, bind, mret, M_ret, ret in *.

Section WithRender.

Variable render : renderer.

Lemma dirname_output k : dirname (output_path k) = "documents".
Proof. by destruct k. Qed.

Lemma output_path_inj k j : output_path k = output_path j -> k = j.
Proof. by destruct k, j. Qed.

Lemma output_path_not_documents k : output_path k <> "documents".
Proof. by destruct k. Qed.

(** Every builder has one shape: render the story, save it, print. *)
Lemma builder_unfold k w :
  builder render k w =
    match render (clock w) (template_of k) (story_of k (clock w)) with
    | inl (Failed e None) => (w, inl e)
    | inl (Failed e (Some part)) =>
        match write_file (output_path k) part (fs w) with
        | inl e' => (w, inl e')
        | inr f' => (emit (EvWrite (output_path k) part) (set_fs f' w), inl e)
        end
    | inr pdf =>
        match write_file (output_path k) pdf (fs w) with
        | inl e => (w, inl e)
        | inr f' =>
            (emit (EvPrint ("Created: " +:+ output_path k))
               (emit (EvWrite (output_path k) pdf) (set_fs f' w)), inr tt)
        end
    end.
Proof.
  destruct k; unfold builder; unfold_m; simpl;
    (destruct (render _ _ _) as [[e [part|]]|pdf]; [| done |]);
    by destruct (write_file _ _ _).
Qed.

(** A write that the open allowed leaves a writable file with the bytes. *)
Lemma write_file_ok p data f f' :
  write_file p data f = inr f' -> f' = set_entry p (NFile true data) f.
Proof.
  unfold write_file, open_wb. intros H.
  destruct (lookup_dir f (dirname p)) as [[dw|? ?]|]; try done.
  assert (Hput : put_bytes p data (set_entry p (NFile true []) f)
                 = set_entry p (NFile true data) f).
  { unfold put_bytes, set_entry; simpl. rewrite lookup_insert_eq. simpl.
    by rewrite insert_insert_eq. }
  destruct (entries f !! p) as [[?|[] ?]|]; try done.
  - injection H as <-. exact Hput.
  - destruct dw; [|done]. injection H as <-. exact Hput.
Qed.

Lemma write_file_target k data f :
  writable_target k f = true ->
  write_file (output_path k) data f = inr (set_entry (output_path k) (NFile true data) f).
Proof.
  intros Hw.
  destruct (write_file (output_path k) data f) as [e|f'] eqn:Hf.
  - exfalso. revert Hw Hf. unfold writable_target, write_file, open_wb, lookup_dir.
    rewrite dirname_output. destruct (decide _) as [|_]; [done|].
    destruct (entries f !! "documents") as [[[]|]|]; try done.
    by destruct (entries f !! output_path k) as [[?|[] ?]|].
  - by rewrite (write_file_ok _ _ _ _ Hf).
Qed.

Lemma builder_ok k w w' :
  builder render k w = (w', inr tt) ->
  exists pdf,
    render (clock w) (template_of k) (story_of k (clock w)) = inr pdf /\
    write_file (output_path k) pdf (fs w) =
      inr (set_entry (output_path k) (NFile true pdf) (fs w)) /\
    w' = World (set_entry (output_path k) (NFile true pdf) (fs w)) (clock w)
           (reportlab_installed w) (trace w ++ build_events k pdf).
Proof.
  rewrite builder_unfold. intros H.
  destruct (render _ _ _) as [[e [part|]]|pdf]; [|done|].
  { by destruct (write_file _ _ _). }
  destruct (write_file _ _ _) as [e|f'] eqn:Hw; [done|].
  pose proof (write_file_ok _ _ _ _ Hw) as ->. exists pdf. split_and!; [done..|].
  inversion H. unfold emit, set_fs, build_events; simpl. by rewrite <- app_assoc.
Qed.

(** A builder that raises has printed nothing.  It leaves the world as it
    was, or, when its save raised in a write, with the part written in
    its file. *)
Lemma builder_err k w w' e :
  builder render k w = (w', inl e) ->
  exists left,
    w' = crashed k left w /\
    match left with
    | None => True
    | Some part =>
        write_file (output_path k) part (fs w)
          = inr (set_entry (output_path k) (NFile true part) (fs w))
    end.
Proof.
  rewrite builder_unfold. intros H.
  destruct (render _ _ _) as [[e' [part|]]|pdf].
  - destruct (write_file _ _ _) as [e''|f'] eqn:Hw.
    + exists None. by injection H as <- _.
    + pose proof (write_file_ok _ _ _ _ Hw) as ->. exists (Some part).
      split; [|done]. by injection H as <- _.
  - exists None. by injection H as <- _.
  - destruct (write_file _ _ _) as [e'|f'] eqn:Hw; [|done].
    exists None. by injection H as <- _.
Qed.

Lemma builder_succeeds k w pdf :
  render (clock w) (template_of k) (story_of k (clock w)) = inr pdf ->
  writable_target k (fs w) = true ->
  builder render k w =
    (World (set_entry (output_path k) (NFile true pdf) (fs w)) (clock w)
       (reportlab_installed w) (trace w ++ build_events k pdf), inr tt).
Proof.
  intros Hr Hw. rewrite builder_unfold, Hr, (write_file_target _ _ _ Hw).
  unfold emit, set_fs, build_events; simpl. by rewrite <- app_assoc.
Qed.

Lemma built_nil w : built [] w = w.
Proof. destruct w. unfold built; simpl. by rewrite app_nil_r. Qed.

Lemma built_cons kp done w : built (kp :: done) w = built done (built [kp] w).
Proof.
  unfold built; simpl. f_equal. by rewrite ?app_nil_r, <- ?app_assoc.
Qed.

Lemma built_snoc kp done w : built (done ++ [kp]) w = built [kp] (built done w).
Proof.
  unfold built; simpl. rewrite foldl_app, flat_map_app; simpl.
  f_equal. by rewrite ?app_nil_r, <- ?app_assoc.
Qed.

Lemma builder_ok_built k w w' :
  builder render k w = (w', inr tt) ->
  exists pdf, rendered render w (k, pdf) /\ w' = built [(k, pdf)] w.
Proof.
  intros (pdf & Hr & _ & ->)%builder_ok. exists pdf. split; [done|].
  unfold built, build_events; simpl. by rewrite ?app_nil_r.
Qed.

Lemma run_builders_app ks1 ks2 w :
  run_builders render (ks1 ++ ks2) w =
    match run_builders render ks1 w with
    | (w', inr _) => run_builders render ks2 w'
    | (w', inl e) => (w', inl e)
    end.
Proof.
  revert w. induction ks1 as [|k ks1 IH]; intros w; simpl; [done|].
  unfold mbind, M_bind, bind. destruct (builder render k w) as [w1 [e|[]]]; [done|].
  apply IH.
Qed.

(** The builders run in the order of the list and stop at the first one
    that raises: those before it succeeded, in order, and the world is
    the one the failing builder left. *)
Lemma run_builders_inv ks w w' r :
  run_builders render ks w = (w', r) ->
  exists done,
    Forall (rendered render w) done /\
    run_builders render done.*1 w = (built done w, inr tt) /\
    match r with
    | inr _ => done.*1 = ks /\ w' = built done w
    | inl e => exists k rest left,
        ks = done.*1 ++ k :: rest /\
        builder render k (built done w) = (w', inl e) /\
        w' = crashed k left (built done w)
    end.
Proof.
  revert w w' r. induction ks as [|k ks IH]; intros w w' r; simpl.
  - intros [= <- <-]. exists []. by rewrite built_nil.
  - unfold mbind, M_bind, bind.
    destruct (builder render k w) as [w1 [e|[]]] eqn:Hb.
    + intros [= <- <-]. exists []. rewrite built_nil.
      destruct (builder_err _ _ _ _ Hb) as (left & Hleft & _).
      split_and!; [done..|]. by exists k, ks, left.
    + intros Hrest. destruct (builder_ok_built _ _ _ Hb) as (pdf & Hr & ->).
      destruct (IH _ _ _ Hrest) as (done & Hall & Hdone & Hres).
      exists ((k, pdf) :: done). split_and!.
      * constructor; [done|]. eapply Forall_impl; [exact Hall|].
        intros [k' pdf'] H. exact H.
      * rewrite fmap_cons. simpl. unfold mbind, M_bind, bind.
        by rewrite Hb, Hdone, (built_cons _ done).
      * destruct r as [e|u].
        -- destruct Hres as (k' & rest & left & -> & Hk' & ->).
           exists k', rest, left. by rewrite (built_cons _ done).
        -- destruct Hres as [<- ->]. by rewrite fmap_cons, (built_cons _ done).
Qed.

Lemma run_builders_ok ks w w' :
  run_builders render ks w = (w', inr tt) ->
  exists done,
    w' = built done w /\ Forall (rendered render w) done /\ done.*1 = ks.
Proof.
  intros Hrun.
  destruct (run_builders_inv _ _ _ _ Hrun) as (done & Hall & _ & Hdone & ->).
  by exists done.
Qed.

Lemma first_failure_raises ks w k e :
  first_failure render ks w = Some (k, e) ->
  exists w', run_builders render ks w = (w', inl e).
Proof.
  revert w. induction ks as [|k' ks IH]; intros w; simpl; [done|].
  unfold mbind, M_bind, bind. destruct (builder render k' w) as [w1 [e'|[]]].
  - intros [= <- <-]. eauto.
  - apply IH.
Qed.

Lemma raises_first_failure ks w w' e :
  run_builders render ks w = (w', inl e) ->
  exists k, first_failure render ks w = Some (k, e).
Proof.
  revert w. induction ks as [|k' ks IH]; intros w; simpl; [done|].
  unfold mbind, M_bind, bind. destruct (builder render k' w) as [w1 [e'|[]]].
  - intros [= <- <-]. eauto.
  - apply IH.
Qed.

(** The try block is the three builders in sequence, then the report. *)
Lemma try_body_eq w :
  try_body render w =
    match run_builders render build_sequence w with
    | (w', inr _) => (World (fs w') (clock w') (reportlab_installed w')
                        (trace w' ++ report_events), inr tt)
    | (w', inl e) => (w', inl e)
    end.
Proof.
  unfold try_body, build_sequence; simpl. unfold mbind, M_bind, bind.
  change (create_life_insurance_policy render) with (builder render LifeInsurance).
  change (create_will_and_testament render) with (builder render WillAndTestament).
  change (create_state_id render) with (builder render StateID).
  destruct (builder render LifeInsurance w) as [w1 [e|[]]]; [done|].
  destruct (builder render WillAndTestament w1) as [w2 [e|[]]]; [done|].
  destruct (builder render StateID w2) as [w3 [e|[]]]; [done|].
  unfold_m; unfold emit, report_events; simpl. by rewrite <- !app_assoc.
Qed.

(** The whole run: the prelude, the try block, and the handler when the
    try block raised an Exception. *)
Lemma run_eq w :
  run render w =
    match prelude w with
    | (w1, inl e) => (w1, Uncaught e)
    | (w1, inr _) =>
        match try_body render w1 with
        | (w2, inr _) => (w2, Finished)
        | (w2, inl e) =>
            if catchable e
            then (World (fs w2) (clock w2) (reportlab_installed w2)
                    (trace w2 ++ handler_events e), Finished)
            else (w2, Uncaught e)
        end
    end.
Proof.
  unfold run, module_body, main, prelude, try_except_Exception.
  unfold mbind, M_bind, bind.
  destruct (import_reportlab w) as [w0 [e|[]]]; [done|].
  destruct (os_makedirs_exist_ok "documents" w0) as [w0' [e|[]]]; [done|].
  destruct (print _ w0') as [w1 [e|[]]] eqn:Hp; [done|].
  destruct (try_body render w1) as [w2 [e|[]]]; [|done].
  destruct (catchable e); [|done].
  unfold except_handler, mbind, M_bind, bind, print, emit, handler_events; simpl.
  by rewrite <- !app_assoc.
Qed.

(** The prelude: the import, the directory, the banner. *)
Lemma prelude_eq w :
  prelude w =
    if reportlab_installed w then
      match makedirs_exist_ok "documents" (fs w) with
      | inl e => (w, inl e)
      | inr f' =>
          (World f' (clock w) (reportlab_installed w)
             (trace w ++ (if isdir "documents" (fs w) then [] else [EvMkdir "documents"])
                ++ [EvPrint "Creating mock documents for Lighthouse Smart Vault..."]),
           inr tt)
      end
    else (w, inl (module_not_found "reportlab")).
Proof.
  unfold_m. destruct (reportlab_installed w) eqn:Hi; [|done].
  destruct (makedirs_exist_ok _ _) as [e|f']; [done|].
  destruct (isdir _ _); unfold emit, set_fs; simpl; rewrite ?Hi; [done|].
  by rewrite <- app_assoc.
Qed.

End WithRender.

(* ===================================================================== *)
(** * Error handling of the main block *)
(* ===================================================================== *)

Lemma build_events_no_report k pdf :
  Forall (fun ev => is_error_report ev = false /\ is_success_report ev = false /\
                    is_mkdir ev = false /\ is_system ev = false)
         (build_events k pdf).
Proof. destruct k; repeat constructor. Qed.

Lemma built_events_no_report (done : list (kind * list Byte.byte)) :
  Forall (fun ev => is_error_report ev = false /\ is_success_report ev = false /\
                    is_mkdir ev = false /\ is_system ev = false)
         (flat_map (fun kp => build_events kp.1 kp.2) done).
Proof.
  induction done as [|[k pdf] done IH]; [constructor|].
  change (flat_map _ ((k, pdf) :: done))
    with (build_events k pdf ++ flat_map (fun kp => build_events kp.1 kp.2) done).
  apply Forall_app_2; [apply build_events_no_report|exact IH].
Qed.

Lemma filter_none {A} (P : A -> bool) (l : list A) :
  Forall (fun x => P x = false) l -> List.filter P l = [].
Proof.
  induction 1 as [|x l Hx _ IH]; simpl; [done|]. by rewrite Hx.
Qed.

(** ** Shared facts about traces and file systems *)

Lemma created_line_inj k j :
  "Created: " +:+ output_path k = "Created: " +:+ output_path j -> k = j.
Proof. by destruct k, j. Qed.

Lemma event_of_build_events j k pdf ev :
  ev ∈ build_events k pdf -> event_of j ev -> j = k.
Proof.
  unfold build_events. rewrite !elem_of_cons, elem_of_nil.
  intros [->|[->|[]]] [[pdf' H]|H]; try discriminate.
  - injection H as H _. symmetry. by apply output_path_inj.
  - symmetry. apply created_line_inj. congruence.
Qed.

Lemma event_of_built j (done : list (kind * list Byte.byte)) ev :
  ev ∈ flat_map (fun kp => build_events kp.1 kp.2) done ->
  event_of j ev -> j ∈ done.*1.
Proof.
  induction done as [|[k pdf] done IH]; [by rewrite elem_of_nil|].
  change (flat_map _ ((k, pdf) :: done))
    with (build_events k pdf ++ flat_map (fun kp => build_events kp.1 kp.2) done).
  rewrite elem_of_app, fmap_cons, elem_of_cons. intros [Hin|Hin] Hev.
  - left. by eapply event_of_build_events.
  - right. by apply IH.
Qed.

(** The builds [done] touch no path but their own. *)
Lemma built_lookup_other (done : list (kind * list Byte.byte)) w p :
  (forall k, k ∈ done.*1 -> output_path k <> p) ->
  entries (fs (built done w)) !! p = entries (fs w) !! p.
Proof.
  revert w. induction done as [|[k pdf] done IH]; intros w Hp; [done|].
  rewrite built_cons, IH.
  - simpl. apply lookup_insert_ne. apply Hp. rewrite fmap_cons. by left.
  - intros j Hj. apply Hp. rewrite fmap_cons. by right.
Qed.

Lemma build_sequence_later ks1 k ks2 j :
  build_sequence = ks1 ++ k :: ks2 -> j ∈ ks2 -> (j ∉ ks1) /\ j <> k.
Proof.
  intros Hseq Hj.
  assert (Hnd : NoDup (ks1 ++ k :: ks2)).
  { rewrite <- Hseq. by apply (bool_decide_unpack _). }
  apply NoDup_app in Hnd as (_ & Hdisj & Hnd2).
  apply NoDup_cons in Hnd2 as [Hk _]. split.
  - intros Hj1. apply (Hdisj _ Hj1). by right.
  - by intros ->.
Qed.

Lemma built_lookup_documents (done : list (kind * list Byte.byte)) w :
  entries (fs (built done w)) !! "documents" = entries (fs w) !! "documents".
Proof.
  apply built_lookup_other. intros k _. apply output_path_not_documents.
Qed.

Lemma built_lookup_own (done : list (kind * list Byte.byte)) w k :
  NoDup done.*1 -> k ∈ done.*1 ->
  exists pdf, (k, pdf) ∈ done /\
              entries (fs (built done w)) !! output_path k = Some (NFile true pdf).
Proof.
  revert w. induction done as [|[j pdf] done IH]; intros w Hnd Hk.
  { by rewrite elem_of_nil in Hk. }
  rewrite fmap_cons in Hnd, Hk. apply NoDup_cons in Hnd as [Hj Hnd].
  rewrite built_cons. destruct (decide (k = j)) as [->|Hne].
  - exists pdf. split; [by left|].
    rewrite built_lookup_other.
    + simpl. apply lookup_insert_eq.
    + intros i Hi Heq. apply output_path_inj in Heq as ->. by apply Hj.
  - apply elem_of_cons in Hk as [?|Hk]; [done|].
    destruct (IH (built [(j, pdf)] w) Hnd Hk) as (pdf' & Hin & Hlook).
    exists pdf'. split; [by right|done].
Qed.

(** From a fresh trace, the prelude records the creation of the directory,
    if it had to create it, and the banner. *)
Lemma prelude_cases w w1 :
  trace w = [] ->
  prelude w = (w1, inr tt) ->
  reportlab_installed w = true /\
  clock w1 = clock w /\
  ((isdir "documents" (fs w) = true /\ fs w1 = fs w /\
    trace w1 = [EvPrint "Creating mock documents for Lighthouse Smart Vault..."]) \/
   (isdir "documents" (fs w) = false /\
    mkdir "documents" (fs w) = inr (fs w1) /\
    trace w1 = [ EvMkdir "documents";
                 EvPrint "Creating mock documents for Lighthouse Smart Vault..." ])).
Proof.
  intros Hfresh. rewrite prelude_eq. destruct (reportlab_installed w); [|done].
  unfold makedirs_exist_ok.
  destruct (mkdir "documents" (fs w)) as [e|f'] eqn:Hmk.
  - destruct (isdir "documents" (fs w)) eqn:Hdir; [|done].
    intros [= <-]; simpl. rewrite Hfresh. split_and!; [done..|]. by left.
  - assert (Hdir : isdir "documents" (fs w) = false).
    { revert Hmk. unfold mkdir, isdir. destruct (lookup_dir _ _) as [[?|? ?]|]; try done.
      by destruct (entries (fs w) !! "documents"). }
    rewrite Hdir. intros [= <-]; simpl. rewrite Hfresh. split_and!; [done..|]. by right.
Qed.

Lemma prelude_fails w w1 e : prelude w = (w1, inl e) -> w1 = w.
Proof.
  rewrite prelude_eq. destruct (reportlab_installed w); [|by intros [= <-]].
  destruct (makedirs_exist_ok _ _); [by intros [= <-]|done].
Qed.

Lemma printed_app (l1 l2 : list event) : printed (l1 ++ l2) = printed l1 ++ printed l2.
Proof. apply omap_app. Qed.

Lemma printed_built (done : list (kind * list Byte.byte)) :
  printed (flat_map (fun kp => build_events kp.1 kp.2) done) = map created_line done.*1.
Proof.
  induction done as [|[k pdf] done IH]; [done|].
  rewrite fmap_cons. simpl. f_equal. exact IH.
Qed.

Lemma prelude_printed w w1 :
  trace w = [] ->
  prelude w = (w1, inr tt) ->
  printed (trace w1) = ["Creating mock documents for Lighthouse Smart Vault..."] /\
  List.filter is_write (trace w1) = [].
Proof.
  intros Hfresh Hpre.
  by destruct (prelude_cases _ _ Hfresh Hpre) as (_ & _ & [(_ & _ & ->)|(_ & _ & ->)]).
Qed.

Lemma crashed_lookup_other k left w p :
  p <> output_path k ->
  entries (fs (crashed k left w)) !! p = entries (fs w) !! p.
Proof.
  intros Hp. destruct left as [part|]; [|done]. simpl. by rewrite lookup_insert_ne.
Qed.

Lemma crashed_trace k left w :
  trace (crashed k left w) = trace w ++ crash_events k left.
Proof. destruct left; [done|]. simpl. by rewrite app_nil_r. Qed.

Lemma crashed_cwd_writable k left w :
  cwd_writable (fs (crashed k left w)) = cwd_writable (fs w).
Proof. by destruct left. Qed.

Lemma event_of_crash j k left ev :
  ev ∈ crash_events k left -> event_of j ev -> j = k.
Proof.
  destruct left as [part|]; simpl; [|by rewrite elem_of_nil].
  rewrite elem_of_cons, elem_of_nil. intros [->|[]] [[pdf H]|H]; [|done].
  injection H as H _. symmetry. by apply output_path_inj.
Qed.

Lemma crash_events_quiet k left :
  Forall (fun ev => is_error_report ev = false /\ is_success_report ev = false /\
                    is_mkdir ev = false /\ is_system ev = false)
         (crash_events k left).
Proof. destruct left; repeat constructor. Qed.

Lemma printed_crash k left : printed (crash_events k left) = [].
Proof. by destruct left. Qed.

Lemma event_of_handler j e ev : ev ∈ handler_events e -> ~ event_of j ev.
Proof.
  unfold handler_events. rewrite !elem_of_cons, elem_of_nil.
  intros [->|[->|[]]] [[pdf H]|H]; try done; by destruct j.
Qed.

Lemma event_of_prelude j w w1 ev :
  trace w = [] -> prelude w = (w1, inr tt) -> ev ∈ trace w1 -> ~ event_of j ev.
Proof.
  intros Hfresh Hpre.
  destruct (prelude_cases _ _ Hfresh Hpre) as (_ & _ & [(_ & _ & ->)|(_ & _ & ->)]);
    rewrite ?elem_of_cons, elem_of_nil.
  - intros [->|[]] [[pdf H]|H]; try done; by destruct j.
  - intros [->|[->|[]]] [[pdf H]|H]; try done; by destruct j.
Qed.

(** When the try block is entered nothing has been reported yet. *)
Lemma prelude_trace_quiet w w1 :
  trace w = [] ->
  prelude w = (w1, inr tt) ->
  Forall (fun ev => is_error_report ev = false /\ is_success_report ev = false /\
                    is_system ev = false)
         (trace w1).
Proof.
  intros Hfresh. rewrite prelude_eq. destruct (reportlab_installed w); [|done].
  destruct (makedirs_exist_ok _ _); [done|]. intros [= <-]; simpl.
  rewrite Hfresh; simpl. destruct (isdir _ _); repeat constructor.
Qed.

(** A try block that raises did so in a builder: the builders before it
    succeeded, in order, and the world is the one the failing builder
    left. *)
Lemma try_body_raises render w w' e :
  try_body render w = (w', inl e) ->
  exists done k rest left,
    build_sequence = done.*1 ++ k :: rest /\
    Forall (rendered render w) done /\
    run_builders render done.*1 w = (built done w, inr tt) /\
    builder render k (built done w) = (w', inl e) /\
    w' = crashed k left (built done w).
Proof.
  rewrite try_body_eq.
  destruct (run_builders render build_sequence w) as [w2 [e'|[]]] eqn:Hrun; [|done].
  intros [= -> ->].
  destruct (run_builders_inv _ _ _ _ _ Hrun)
    as (done & Hall & Hdone & k & rest & left & Hks & Hk & Hw').
  by exists done, k, rest, left.
Qed.

(** C1 (as amended): when one of the three builds raises an exception of
    class Exception, the run prints the error message and the installation
    hint as its last two lines and then ends normally: the interpreter
    leaves with exit status 0, not with a non-zero status and not with a
    structured error code. *)
Theorem C1_build_failure_exits_zero (render : renderer) w w1 k e :
  prelude w = (w1, inr tt) ->
  first_failure render build_sequence w1 = Some (k, e) ->
  catchable e = true ->
  exists w2 before,
    run render w = (w2, Finished) /\
    exit_status (run render w).2 = 0%Z /\
    trace w2 = before ++ handler_events e.
Proof.
  intros Hpre Hfail Hcatch.
  destruct (first_failure_raises _ _ _ _ _ Hfail) as [w' Hrun].
  assert (Hrun' : run render w =
    (World (fs w') (clock w') (reportlab_installed w') (trace w' ++ handler_events e),
     Finished)).
  { by rewrite run_eq, Hpre, try_body_eq, Hrun, Hcatch. }
  eexists _, (trace w'). rewrite Hrun'. by split_and!.
Qed.

Lemma C1_build_failure_exits_zero_witness :
  prelude w_readonly = ((prelude w_readonly).1, inr tt) /\
  first_failure toy_render build_sequence (prelude w_readonly).1
    = Some (LifeInsurance, permission_error life_filename) /\
  catchable (permission_error life_filename) = true /\
  exists w2 before,
    run toy_render w_readonly = (w2, Finished) /\
    exit_status (run toy_render w_readonly).2 = 0%Z /\
    trace w2 = before ++ handler_events (permission_error life_filename).
Proof.
  split_and!; [vm_compute; reflexivity..|].
  apply (C1_build_failure_exits_zero toy_render w_readonly (prelude w_readonly).1
           LifeInsurance (permission_error life_filename)); vm_compute; reflexivity.
Defined.

(** C1 as stated fails: when documents/ is not writable the first build
    raises PermissionError, the handler prints its two lines, and the exit
    status is 0. *)
Lemma C1_counterexample :
  (prelude w_readonly).2 = inr tt /\
  first_failure toy_render build_sequence (prelude w_readonly).1
    = Some (LifeInsurance, permission_error life_filename) /\
  ~ (exit_status (run toy_render w_readonly).2 <> 0%Z).
Proof.
  split_and!; [vm_compute; reflexivity..|].
  intros H. apply H. vm_compute. reflexivity.
Qed.

(** C2 (as amended): every exception of class Exception raised inside the
    try block is caught exactly once by the single handler, which prints
    one line holding str(e) and then the hint to install ReportLab; the
    run then ends.  There is no per-document isolation: the files are as
    the try block left them and no build after the one that raised has
    written its file or printed its line.  The only partial-success
    reporting is the Created line of each build that succeeded before
    the failure: what the script printed is the banner, those lines in
    the order of the sequence, the error line and the hint, and neither
    the success line nor the directory listing appears. *)
Theorem C2_exception_in_try_block_caught_once (render : renderer) w w1 w2 e :
  trace w = [] ->
  prelude w = (w1, inr tt) ->
  try_body render w1 = (w2, inl e) ->
  catchable e = true ->
  exists w3,
    run render w = (w3, Finished) /\
    trace w3 = trace w2 ++
      [ EvPrint ("Error creating documents: " +:+ exn_str e);
        EvPrint "Please ensure ReportLab is installed: pip install reportlab" ] /\
    length (List.filter is_error_report (trace w3)) = 1 /\
    fs w3 = fs w2 /\
    List.filter is_success_report (trace w3) = [] /\
    List.filter is_system (trace w3) = [] /\
    exists done k rest,
      build_sequence = done.*1 ++ k :: rest /\
      run_builders render done.*1 w1 = (built done w1, inr tt) /\
      builder render k (built done w1) = (w2, inl e) /\
      printed (trace w3) =
        "Creating mock documents for Lighthouse Smart Vault..."
        :: map created_line done.*1
        ++ [ "Error creating documents: " +:+ exn_str e;
             "Please ensure ReportLab is installed: pip install reportlab" ] /\
      forall j, j ∈ rest ->
        entries (fs w3) !! output_path j = entries (fs w1) !! output_path j /\
        forall ev, ev ∈ trace w3 -> ~ event_of j ev.
Proof.
  intros Hfresh Hpre Hbody Hcatch.
  eexists. split; [by rewrite run_eq, Hpre, Hbody, Hcatch|]. simpl.
  split; [done|].
  destruct (try_body_raises _ _ _ _ Hbody)
    as (done & k & rest & left & Hseq & _ & Hdone & Hk & ->).
  pose proof (prelude_trace_quiet _ _ Hfresh Hpre) as Hw1.
  pose proof (built_events_no_report done) as Hbuilt.
  pose proof (crash_events_quiet k left) as Hcrash.
  assert (Hquiet : Forall (fun ev => is_error_report ev = false /\
      is_success_report ev = false /\ is_system ev = false)
      (trace (crashed k left (built done w1)))).
  { rewrite crashed_trace. simpl. apply Forall_app_2; [apply Forall_app_2|].
    - exact Hw1.
    - eapply Forall_impl; [exact Hbuilt|]. by intros ev (? & ? & ? & ?).
    - eapply Forall_impl; [exact Hcrash|]. by intros ev (? & ? & ? & ?). }
  rewrite !List.filter_app.
  rewrite (filter_none is_error_report (trace (crashed k left (built done w1)))),
    (filter_none is_success_report (trace (crashed k left (built done w1)))),
    (filter_none is_system (trace (crashed k left (built done w1))));
    [|eapply Forall_impl; [exact Hquiet|]; by intros ev (? & ? & ?)..].
  split_and!; [|done..|].
  { simpl. by destruct (_ +:+ exn_str e). }
  exists done, k, rest. split_and!; [done..| |].
  - rewrite printed_app, crashed_trace, printed_app, printed_crash. simpl.
    rewrite printed_app, printed_built.
    destruct (prelude_printed _ _ Hfresh Hpre) as [-> _]. simpl.
    by rewrite app_nil_r.
  - intros j Hj.
    assert (Hnd : NoDup (done.*1 ++ k :: rest)).
    { rewrite <- Hseq. by apply (bool_decide_unpack _). }
    apply NoDup_app in Hnd as (_ & Hdisj & Hnd2).
    apply NoDup_cons in Hnd2 as [Hk_rest _].
    assert (Hjk : j <> k) by (by intros ->).
    assert (Hjdone : j ∉ done.*1).
    { intros Hin. apply (Hdisj _ Hin). by right. }
    split.
    + rewrite crashed_lookup_other.
      * apply built_lookup_other. intros i Hi Heq.
        apply output_path_inj in Heq as ->. done.
      * intros Heq. by apply output_path_inj in Heq.
    + intros ev. rewrite elem_of_app, crashed_trace, elem_of_app. simpl.
      rewrite elem_of_app. intros [[[Hin|Hin]|Hin]|Hin] Hof.
      * by apply (event_of_prelude j _ _ _ Hfresh Hpre Hin).
      * apply Hjdone. by eapply event_of_built.
      * apply Hjk. by eapply event_of_crash.
      * by apply (event_of_handler j e ev).
Qed.

Lemma C2_exception_in_try_block_caught_once_witness :
  trace w_fresh = [] /\
  prelude w_fresh = ((prelude w_fresh).1, inr tt) /\
  try_body full_disk_render (prelude w_fresh).1
    = ((try_body full_disk_render (prelude w_fresh).1).1,
       inl (no_space_error will_filename)) /\
  catchable (no_space_error will_filename) = true /\
  exists w3,
    run full_disk_render w_fresh = (w3, Finished) /\
    trace w3 = trace (try_body full_disk_render (prelude w_fresh).1).1 ++
      [ EvPrint ("Error creating documents: " +:+ exn_str (no_space_error will_filename));
        EvPrint "Please ensure ReportLab is installed: pip install reportlab" ] /\
    length (List.filter is_error_report (trace w3)) = 1 /\
    fs w3 = fs (try_body full_disk_render (prelude w_fresh).1).1 /\
    List.filter is_success_report (trace w3) = [] /\
    List.filter is_system (trace w3) = [].
Proof.
  split_and!; [vm_compute; reflexivity..|].
  destruct (C2_exception_in_try_block_caught_once full_disk_render w_fresh
              (prelude w_fresh).1 (try_body full_disk_render (prelude w_fresh).1).1
              (no_space_error will_filename))
    as (w3 & Hrun & Htr & Hone & Hfs & Hok & Hsys & _); [vm_compute; reflexivity..|].
  exists w3. by split_and!.
Defined.

(** C2 as stated fails three times.  When the name documents is taken by
    a regular file, os.makedirs raises FileExistsError before the try
    block is entered: the exception is not caught, neither the message
    nor the hint is printed, and the interpreter leaves with a traceback.
    A partial success is reported: when the save of the will finds the
    device full, the exception is caught and yet the output holds the
    Created line of the life insurance policy.  And a KeyboardInterrupt
    raised inside the try block is not an Exception: it is not caught and
    no error line is printed. *)
Lemma C2_counterexample :
  (os_makedirs_exist_ok "documents" w_blocked
     = (w_blocked, inl (file_exists_error "documents")) /\
   catchable (file_exists_error "documents") = true /\
   run toy_render w_blocked = (w_blocked, Uncaught (file_exists_error "documents")) /\
   trace (run toy_render w_blocked).1 = []) /\
  ((try_body full_disk_render (prelude w_fresh).1).2
     = inl (no_space_error will_filename) /\
   (run full_disk_render w_fresh).2 = Finished /\
   printed (trace (run full_disk_render w_fresh).1) =
     [ "Creating mock documents for Lighthouse Smart Vault...";
       "Created: documents/Life_Insurance_Policy.pdf";
       "Error creating documents: [Errno 28] No space left on device: 'documents/Last_Will_and_Testament.pdf'";
       "Please ensure ReportLab is installed: pip install reportlab" ]) /\
  ((try_body interrupted_render (prelude w_fresh).1).2
     = inl (Exn KeyboardInterrupt "") /\
   (run interrupted_render w_fresh).2 = Uncaught (Exn KeyboardInterrupt "") /\
   List.filter is_error_report (trace (run interrupted_render w_fresh).1) = []).
Proof. split_and!; vm_compute; reflexivity. Qed.

(* ===================================================================== *)
(** * The builds, one after another *)
(* ===================================================================== *)

(** C3: the three builds run strictly one after another, and a build that
    raises aborts the rest of the sequence.  When the builds before [k]
    succeeded and [k] raises [e], the try block raises [e] in the very
    world [k] left: that world holds the files and the events of the
    earlier builds, in their order, then what the failing save wrote of
    the file of [k], if it had opened it, and nothing else; no later
    build has written its file or printed its line, and an exception of
    class Exception goes straight to the one handler. *)
Theorem C3_failure_aborts_later_builds (render : renderer) w ks1 k ks2 wk w' e :
  build_sequence = ks1 ++ k :: ks2 ->
  run_builders render ks1 w = (wk, inr tt) ->
  builder render k wk = (w', inl e) ->
  try_body render w = (w', inl e) /\
  (exists done left,
     done.*1 = ks1 /\ Forall (rendered render w) done /\
     wk = built done w /\
     w' = crashed k left wk /\
     trace w' = trace w ++ flat_map (fun kp => build_events kp.1 kp.2) done
                        ++ crash_events k left /\
     forall j, j ∈ ks2 ->
       entries (fs w') !! output_path j = entries (fs w) !! output_path j /\
       forall ev,
         ev ∈ flat_map (fun kp => build_events kp.1 kp.2) done ++ crash_events k left ->
         ~ event_of j ev) /\
  (catchable e = true ->
   try_except_Exception (try_body render) except_handler w = except_handler e w').
Proof.
  intros Hseq Hrun Hk.
  assert (Hbody : try_body render w = (w', inl e)).
  { rewrite try_body_eq, Hseq, run_builders_app, Hrun. simpl.
    unfold mbind, M_bind, bind. by rewrite Hk. }
  split_and!; [done| |].
  - destruct (run_builders_inv _ _ _ _ _ Hrun) as (done & Hall & _ & Hdone & ->).
    destruct (builder_err _ _ _ _ _ Hk) as (left & -> & _).
    exists done, left. split_and!; [done..| |].
    + rewrite crashed_trace. simpl. by rewrite <- app_assoc.
    + intros j Hj.
      destruct (build_sequence_later _ _ _ _ Hseq Hj) as [Hj1 Hjk]. split.
      * rewrite crashed_lookup_other.
        -- apply built_lookup_other. intros i Hi Heq.
           apply output_path_inj in Heq as ->. by rewrite Hdone in Hi.
        -- intros Heq. by apply output_path_inj in Heq.
      * intros ev. rewrite elem_of_app. intros [Hev|Hev] Hof.
        -- apply Hj1. rewrite <- Hdone. by eapply event_of_built.
        -- apply Hjk. by eapply event_of_crash.
  - intros Hcatch. unfold try_except_Exception. by rewrite Hbody, Hcatch.
Qed.

Lemma C3_failure_aborts_later_builds_witness :
  build_sequence = [LifeInsurance] ++ WillAndTestament :: [StateID] /\
  run_builders full_disk_render [LifeInsurance] (prelude w_fresh).1
    = ((run_builders full_disk_render [LifeInsurance] (prelude w_fresh).1).1, inr tt) /\
  builder full_disk_render WillAndTestament
      (run_builders full_disk_render [LifeInsurance] (prelude w_fresh).1).1
    = ((try_body full_disk_render (prelude w_fresh).1).1,
       inl (no_space_error will_filename)) /\
  try_body full_disk_render (prelude w_fresh).1
    = ((try_body full_disk_render (prelude w_fresh).1).1,
       inl (no_space_error will_filename)) /\
  entries (fs (try_body full_disk_render (prelude w_fresh).1).1) !! will_filename
    = Some (NFile true pdf_header) /\
  entries (fs (try_body full_disk_render (prelude w_fresh).1).1) !! id_filename = None.
Proof.
  split_and!;
    [vm_compute; reflexivity|vm_compute; reflexivity|vm_compute; reflexivity|
    |vm_compute; reflexivity|vm_compute; reflexivity].
  apply (C3_failure_aborts_later_builds full_disk_render (prelude w_fresh).1
           [LifeInsurance] WillAndTestament [StateID]
           (run_builders full_disk_render [LifeInsurance] (prelude w_fresh).1).1
           (try_body full_disk_render (prelude w_fresh).1).1
           (no_space_error will_filename)); vm_compute; reflexivity.
Defined.

(** C4: on a writable environment, where the layout engine produces the
    bytes [pdf], the builder of each kind returns None, writes exactly one
    file, at the fixed path of its kind, and that file holds [pdf]; the
    builder is selected by the kind alone. *)
Theorem C4_builder_writes_one_file_at_fixed_path (render : renderer) k w pdf :
  writable_target k (fs w) = true ->
  render (clock w) (template_of k) (story_of k (clock w)) = inr pdf ->
  exists w',
    builder render k w = (w', inr tt) /\
    entries (fs w') = <[output_path k := NFile true pdf]> (entries (fs w)) /\
    trace w' = trace w ++
      [EvWrite (output_path k) pdf; EvPrint ("Created: " +:+ output_path k)] /\
    List.filter is_write (trace w') = List.filter is_write (trace w) ++
      [EvWrite (output_path k) pdf] /\
    output_path k =
      match k with
      | LifeInsurance => "documents/Life_Insurance_Policy.pdf"
      | WillAndTestament => "documents/Last_Will_and_Testament.pdf"
      | StateID => "documents/State_ID_Card.pdf"
      end.
Proof.
  intros Hw Hr. eexists. split; [by apply builder_succeeds|]. simpl.
  split_and!; [done..| |by destruct k].
  by rewrite List.filter_app.
Qed.

Lemma C4_builder_writes_one_file_at_fixed_path_witness :
  writable_target StateID (fs w_ready) = true /\
  toy_render (clock w_ready) (template_of StateID) (story_of StateID (clock w_ready))
    = inr (pdf_header ++ bytes_of_string
             (String.concat newline (map flowable_text id_story))) /\
  exists w',
    builder toy_render StateID w_ready = (w', inr tt) /\
    entries (fs w') !! "documents/State_ID_Card.pdf"
      = Some (NFile true (pdf_header ++ bytes_of_string
                (String.concat newline (map flowable_text id_story)))).
Proof.
  split_and!; [vm_compute; reflexivity..|].
  destruct (C4_builder_writes_one_file_at_fixed_path toy_render StateID w_ready
              (pdf_header ++ bytes_of_string
                 (String.concat newline (map flowable_text id_story))))
    as (w' & Hb & Hfs & _); [vm_compute; reflexivity..|].
  exists w'. split; [exact Hb|]. rewrite Hfs. apply lookup_insert_eq.
Defined.


(* ===================================================================== *)
(** * What a builder touches and what it depends on *)
(* ===================================================================== *)

Lemma lookup_documents f : lookup_dir f "documents" = entries f !! "documents".
Proof. done. Qed.

(** Saving to the path of kind [k] looks at two entries only: the
    directory documents and the path itself. *)
Lemma write_file_depends k data f g :
  entries f !! "documents" = entries g !! "documents" ->
  entries f !! output_path k = entries g !! output_path k ->
  match write_file (output_path k) data f, write_file (output_path k) data g with
  | inl e1, inl e2 => e1 = e2
  | inr f', inr g' => entries f' !! output_path k = entries g' !! output_path k
  | _, _ => False
  end.
Proof.
  intros Hd Hp.
  assert (Hopen :
    match open_wb (output_path k) f, open_wb (output_path k) g with
    | inl e1, inl e2 => e1 = e2
    | inr _, inr _ => True
    | _, _ => False
    end).
  { unfold open_wb. rewrite dirname_output, !lookup_documents, <- Hd, <- Hp.
    destruct (entries f !! "documents") as [[dw|? ?]|]; try done.
    destruct (entries f !! output_path k) as [[?|[] ?]|]; try done.
    by destruct dw. }
  pose proof (write_file_ok (output_path k) data f) as Hf.
  pose proof (write_file_ok (output_path k) data g) as Hg.
  unfold write_file in *.
  destruct (open_wb (output_path k) f) as [e1|f1], (open_wb (output_path k) g) as [e2|g1];
    try done.
  rewrite (Hf _ eq_refl), (Hg _ eq_refl). simpl. by rewrite !lookup_insert_eq.
Qed.

(** C8: each builder is isolated to its own output file and independent of
    the others.  Whatever its result, it leaves every path but its own as
    it was, the files of the other two kinds among them; and its result and
    the bytes it writes are the same in any two worlds that agree on the
    clock, on the directory documents and on its own path, so that no
    output of another builder is read. *)
Theorem C8_builder_isolated_and_independent (render : renderer) k w w' r :
  builder render k w = (w', r) ->
  (forall p, p <> output_path k -> entries (fs w') !! p = entries (fs w) !! p) /\
  (forall j, j <> k ->
     entries (fs w') !! output_path j = entries (fs w) !! output_path j) /\
  cwd_writable (fs w') = cwd_writable (fs w) /\
  (forall v,
     clock v = clock w ->
     entries (fs v) !! "documents" = entries (fs w) !! "documents" ->
     entries (fs v) !! output_path k = entries (fs w) !! output_path k ->
     (builder render k v).2 = r /\
     entries (fs (builder render k v).1) !! output_path k
       = entries (fs w') !! output_path k).
Proof.
  intros Hb.
  assert (Hframe : forall p, p <> output_path k ->
            entries (fs w') !! p = entries (fs w) !! p).
  { intros p Hp. destruct r as [e|[]].
    - destruct (builder_err _ _ _ _ _ Hb) as (left & -> & _).
      by apply crashed_lookup_other.
    - destruct (builder_ok _ _ _ _ Hb) as (pdf & _ & _ & ->). simpl.
      by apply lookup_insert_ne. }
  split_and!; [done| | |].
  - intros j Hj. apply Hframe. intros Heq. by apply output_path_inj in Heq.
  - destruct r as [e|[]].
    + destruct (builder_err _ _ _ _ _ Hb) as (left & -> & _).
      apply crashed_cwd_writable.
    + by destruct (builder_ok _ _ _ _ Hb) as (pdf & _ & _ & ->).
  - intros v Hclock Hdoc Hpath. revert Hb. rewrite !builder_unfold, Hclock.
    destruct (render _ _ _) as [[e [part|]]|pdf].
    + pose proof (write_file_depends k part (fs v) (fs w) Hdoc Hpath) as Hdep.
      destruct (write_file _ _ (fs v)) as [e1|fv], (write_file _ _ (fs w)) as [e2|fw];
        try done; intros [= <- <-]; simpl; by subst.
    + intros [= <- <-]. split; [done|exact Hpath].
    + pose proof (write_file_depends k pdf (fs v) (fs w) Hdoc Hpath) as Hdep.
      destruct (write_file _ _ (fs v)) as [e1|fv], (write_file _ _ (fs w)) as [e2|fw];
        try done; intros [= <- <-]; simpl; by subst.
Qed.

Lemma C8_builder_isolated_and_independent_witness :
  builder toy_render WillAndTestament (prelude w_fresh).1
    = ((builder toy_render WillAndTestament (prelude w_fresh).1).1, inr tt) /\
  forall j, j <> WillAndTestament ->
    entries (fs (builder toy_render WillAndTestament (prelude w_fresh).1).1)
      !! output_path j
    = entries (fs (prelude w_fresh).1) !! output_path j.
Proof.
  split; [vm_compute; reflexivity|].
  apply (C8_builder_isolated_and_independent toy_render WillAndTestament
           (prelude w_fresh).1
           (builder toy_render WillAndTestament (prelude w_fresh).1).1 (inr tt)).
  vm_compute; reflexivity.
Defined.

(* ===================================================================== *)
(** * The order of a run and its final listing *)
(* ===================================================================== *)

(** The shape of every run that got past the prelude: the builds that
    succeeded are a prefix of the sequence, and the run either reports,
    all three built, or stopped at the builder after that prefix. *)
Lemma run_shape render w w1 :
  prelude w = (w1, inr tt) ->
  exists done tail,
    Forall (rendered render w1) done /\
    done.*1 `prefix_of` build_sequence /\
    run_builders render done.*1 w1 = (built done w1, inr tt) /\
    trace (run render w).1 =
      trace w1 ++ flat_map (fun kp => build_events kp.1 kp.2) done ++ tail /\
    ((run_builders render build_sequence w1 = (built done w1, inr tt) /\
      done.*1 = build_sequence /\ tail = report_events /\
      (run render w).2 = Finished /\
      fs (run render w).1 = fs (built done w1)) \/
     (exists e k rest left,
        run_builders render build_sequence w1
          = (crashed k left (built done w1), inl e) /\
        build_sequence = done.*1 ++ k :: rest /\
        builder render k (built done w1) = (crashed k left (built done w1), inl e) /\
        fs (run render w).1 = fs (crashed k left (built done w1)) /\
        ((catchable e = true /\ tail = crash_events k left ++ handler_events e /\
          (run render w).2 = Finished) \/
         (catchable e = false /\ tail = crash_events k left /\
          (run render w).2 = Uncaught e)))).
Proof.
  intros Hpre. rewrite run_eq, Hpre, try_body_eq.
  destruct (run_builders render build_sequence w1) as [w2 r] eqn:Hrun.
  destruct (run_builders_inv _ _ _ _ _ Hrun) as (done & Hall & Hdone & Hres).
  exists done. destruct r as [e|[]].
  - destruct Hres as (k & rest & left & Hseq & Hk & ->).
    assert (Hpref : done.*1 `prefix_of` build_sequence) by (rewrite Hseq; by eexists).
    destruct (catchable e) eqn:Hc.
    + exists (crash_events k left ++ handler_events e). simpl.
      rewrite crashed_trace. simpl. rewrite <- !app_assoc.
      split_and!; [done..|]. right. exists e, k, rest, left.
      split_and!; [done..|]. by left.
    + exists (crash_events k left). simpl.
      rewrite crashed_trace. simpl. rewrite <- !app_assoc.
      split_and!; [done..|]. right. exists e, k, rest, left.
      split_and!; [done..|]. by right.
  - destruct Hres as [Hseq ->].
    exists report_events. simpl. rewrite <- app_assoc.
    split_and!; [done|by rewrite Hseq|done..|]. by left.
Qed.

(** C9: the builders run in one fixed order, the life insurance policy,
    then the will, then the state ID, and each prints the line Created:
    followed by its file name right after its render.  A successful
    builder adds exactly its write and then its line to the trace; a
    failing one prints nothing and adds at most the part its save wrote.
    The events of a run after the banner are those of the builders that
    were called and succeeded, a prefix of the fixed sequence in its
    order: either all three, followed by the report, or all those before
    the first builder that raises, followed by what that builder wrote
    and the handler's two lines (none for an exception that is not
    caught); what follows the builds holds no Created line. *)
Theorem C9_fixed_order_and_created_line (render : renderer) w w1 :
  prelude w = (w1, inr tt) ->
  build_sequence = [LifeInsurance; WillAndTestament; StateID] /\
  map (fun k => "Created: " +:+ output_path k) build_sequence =
    [ "Created: documents/Life_Insurance_Policy.pdf";
      "Created: documents/Last_Will_and_Testament.pdf";
      "Created: documents/State_ID_Card.pdf" ] /\
  (forall k v v',
     builder render k v = (v', inr tt) ->
     exists pdf,
       render (clock v) (template_of k) (story_of k (clock v)) = inr pdf /\
       trace v' = trace v ++
         [EvWrite (output_path k) pdf; EvPrint ("Created: " +:+ output_path k)]) /\
  (forall k v v' e,
     builder render k v = (v', inl e) ->
     printed (trace v') = printed (trace v) /\
     exists left, trace v' = trace v ++ crash_events k left) /\
  exists done tail,
    trace (run render w).1 =
      trace w1 ++ flat_map (fun kp => build_events kp.1 kp.2) done ++ tail /\
    done.*1 `prefix_of` build_sequence /\
    Forall (rendered render w1) done /\
    run_builders render done.*1 w1 = (built done w1, inr tt) /\
    Forall (fun ev => is_created_line ev = false) tail /\
    ((done.*1 = build_sequence /\ tail = report_events) \/
     (exists k rest left e w2,
        build_sequence = done.*1 ++ k :: rest /\
        builder render k (built done w1) = (w2, inl e) /\
        (tail = crash_events k left ++ handler_events e \/
         tail = crash_events k left))).
Proof.
  intros Hpre. split_and!; [done..| | |].
  - intros k v v' (pdf & Hr & _ & ->)%builder_ok. by exists pdf.
  - intros k v v' e (left & -> & _)%builder_err. rewrite crashed_trace.
    split; [|by exists left]. by rewrite printed_app, printed_crash, app_nil_r.
  - destruct (run_shape render _ _ Hpre)
      as (done & tail & Hall & Hpref & Hdone & Htr & Hend).
    exists done, tail. split_and!; [done..| |].
    + destruct Hend as [(_ & _ & -> & _)
                       |(e & k & rest & left & _ & _ & _ & _ & [(_ & -> & _)|(_ & -> & _)])].
      * repeat constructor.
      * apply Forall_app_2; [destruct left|]; repeat constructor.
      * destruct left; repeat constructor.
    + destruct Hend as [(_ & Hseq & -> & _)
                       |(e & k & rest & left & _ & Hseq & Hk & _ & [(_ & -> & _)|(_ & -> & _)])].
      * by left.
      * right. exists k, rest, left, e, (crashed k left (built done w1)). auto.
      * right. exists k, rest, left, e, (crashed k left (built done w1)). auto.
Qed.

Lemma C9_fixed_order_and_created_line_witness :
  prelude w_fresh = ((prelude w_fresh).1, inr tt) /\
  map (fun k => "Created: " +:+ output_path k) build_sequence =
    [ "Created: documents/Life_Insurance_Policy.pdf";
      "Created: documents/Last_Will_and_Testament.pdf";
      "Created: documents/State_ID_Card.pdf" ] /\
  exists done tail,
    trace (run toy_render w_fresh).1 =
      trace (prelude w_fresh).1
        ++ flat_map (fun kp => build_events kp.1 kp.2) done ++ tail /\
    done.*1 `prefix_of` build_sequence /\
    run_builders toy_render done.*1 (prelude w_fresh).1
      = (built done (prelude w_fresh).1, inr tt).
Proof.
  split; [vm_compute; reflexivity|].
  destruct (C9_fixed_order_and_created_line toy_render w_fresh (prelude w_fresh).1)
    as (_ & Hlines & _ & _ & done & tail & Htr & Hpref & _ & Hdone & _);
    [vm_compute; reflexivity|].
  split; [exact Hlines|]. by exists done, tail.
Defined.

Lemma not_system_in (l : list event) cmd :
  Forall (fun ev => is_system ev = false) l -> EvSystem cmd ∉ l.
Proof.
  intros Hall Hin. rewrite Forall_forall in Hall. by specialize (Hall _ Hin).
Qed.

Lemma built_events_not_system (done : list (kind * list Byte.byte)) :
  Forall (fun ev => is_system ev = false)
         (flat_map (fun kp => build_events kp.1 kp.2) done).
Proof.
  eapply Forall_impl; [apply built_events_no_report|]. by intros ev (? & ? & ? & ?).
Qed.

(** C10: the directory listing is the one effect of a run besides the
    directory, the prints and the three files, and it happens after all
    three builds succeeded and only then.  From a fresh trace, the command
    ls -la documents/ is handed to the shell exactly when the import, the
    directory and the three builds all succeeded; it is then the last
    event of the run, after the three writes, it leaves the files as the
    third build left them, and no other command is ever run. *)
Theorem C10_listing_only_after_three_builds (render : renderer) w :
  trace w = [] ->
  ((exists w1 w2,
      prelude w = (w1, inr tt) /\
      run_builders render build_sequence w1 = (w2, inr tt)) <->
   EvSystem "ls -la documents/" ∈ trace (run render w).1) /\
  (forall w1 w2,
     prelude w = (w1, inr tt) ->
     run_builders render build_sequence w1 = (w2, inr tt) ->
     trace (run render w).1 = trace w2 ++
       [ EvPrint (newline +:+ "Documents created successfully!");
         EvPrint "Documents directory:";
         EvSystem "ls -la documents/" ] /\
     fs (run render w).1 = fs w2 /\
     List.filter is_system (trace (run render w).1) = [EvSystem "ls -la documents/"] /\
     exists pdf1 pdf2 pdf3,
       List.filter is_write (trace (run render w).1) =
         [ EvWrite "documents/Life_Insurance_Policy.pdf" pdf1;
           EvWrite "documents/Last_Will_and_Testament.pdf" pdf2;
           EvWrite "documents/State_ID_Card.pdf" pdf3 ]) /\
  (forall cmd, EvSystem cmd ∈ trace (run render w).1 -> cmd = "ls -la documents/").
Proof.
  intros Hfresh.
  destruct (prelude w) as [w1 [e|[]]] eqn:Hpre.
  { (* the prelude raised: nothing was run *)
    assert (Hrun : run render w = (w, Uncaught e)).
    { rewrite run_eq, Hpre. by rewrite (prelude_fails _ _ _ Hpre). }
    rewrite Hrun; simpl. rewrite Hfresh. split_and!.
    - split; [by intros (? & ? & [=] & _)|by rewrite elem_of_nil].
    - by intros w1' w2 [=].
    - intros cmd. by rewrite elem_of_nil. }
  destruct (prelude_cases _ _ Hfresh Hpre) as (_ & _ & Hcases).
  assert (Hw1 : Forall (fun ev => is_system ev = false) (trace w1) /\
                List.filter is_write (trace w1) = []).
  { destruct Hcases as [(_ & _ & ->)|(_ & _ & ->)]; split; by repeat constructor. }
  destruct Hw1 as [Hw1 Hw1'].
  destruct (run_shape render _ _ Hpre) as (done & tail & Hall & _ & _ & Htr & Hend).
  pose proof (built_events_not_system done) as Hdone.
  destruct Hend as [(Hrun & Hseq & -> & _ & Hfs)
                   |(e & k & rest & left & Hrun & _ & _ & _ & Hend)].
  - (* all three builds succeeded *)
    split_and!.
    + split; [intros _|by eauto].
      rewrite Htr, !elem_of_app. right; right. unfold report_events.
      rewrite !elem_of_cons. by right; right; left.
    + intros w1' w2 [= <-]. rewrite Hrun. intros [= <-].
      split_and!; [by rewrite Htr, app_assoc|exact Hfs| |].
      * rewrite Htr, !List.filter_app, (filter_none _ _ Hw1), (filter_none _ _ Hdone).
        done.
      * destruct done as [|[k1 pdf1] [|[k2 pdf2] [|[k3 pdf3] [|? ?]]]]; try done.
        injection Hseq as -> -> ->. exists pdf1, pdf2, pdf3.
        rewrite Htr, !List.filter_app, Hw1'. done.
    + intros cmd. rewrite Htr, !elem_of_app. intros [Hin|[Hin|Hin]].
      * by apply not_system_in in Hin.
      * by apply not_system_in in Hin.
      * revert Hin. unfold report_events. rewrite !elem_of_cons, elem_of_nil.
        by intros [[=]|[[=]|[[= ->]|[]]]].
  - (* a build raised *)
    assert (Htail : Forall (fun ev => is_system ev = false) tail).
    { destruct Hend as [(_ & -> & _)|(_ & -> & _)];
        [apply Forall_app_2; [|repeat constructor]|];
        (eapply Forall_impl; [apply crash_events_quiet|]; by intros ? (? & ? & ? & ?)). }
    assert (Hnone : forall cmd, EvSystem cmd ∉ trace (run render w).1).
    { intros cmd. rewrite Htr, !elem_of_app.
      intros [Hin|[Hin|Hin]]; by apply not_system_in in Hin. }
    split_and!.
    + split; [|by intros ?%Hnone]. intros (w1' & w2 & [= <-] & Hok).
      rewrite Hrun in Hok. discriminate.
    + intros w1' w2 [= <-]. rewrite Hrun. discriminate.
    + by intros cmd ?%Hnone.
Qed.

Lemma C10_listing_only_after_three_builds_witness :
  trace w_fresh = [] /\
  EvSystem "ls -la documents/" ∈ trace (run toy_render w_fresh).1.
Proof.
  split; [reflexivity|].
  apply (C10_listing_only_after_three_builds toy_render w_fresh); [reflexivity|].
  eexists _, _. split; vm_compute; reflexivity.
Defined.


(* ===================================================================== *)
(** * The output directory and its content *)
(* ===================================================================== *)

Lemma writable_target_built k j pdf w :
  j <> k ->
  writable_target j (fs w) = true ->
  writable_target j (fs (built [(k, pdf)] w)) = true.
Proof.
  intros Hjk. unfold writable_target. simpl.
  rewrite (lookup_insert_ne _ (output_path k) "documents")
    by apply output_path_not_documents.
  rewrite (lookup_insert_ne _ (output_path k) (output_path j));
    [done|]. intros Heq. apply output_path_inj in Heq. by subst.
Qed.

(** Builders whose targets are writable and whose stories the layout engine
    accepts all succeed, one after another. *)
Lemma run_builders_succeed render ks w :
  NoDup ks ->
  (forall k, k ∈ ks -> writable_target k (fs w) = true) ->
  (forall k, k ∈ ks ->
     exists pdf, render (clock w) (template_of k) (story_of k (clock w)) = inr pdf) ->
  exists done,
    done.*1 = ks /\ Forall (rendered render w) done /\
    run_builders render ks w = (built done w, inr tt).
Proof.
  revert w. induction ks as [|k ks IH]; intros w Hnd Hw Hr.
  - exists []. by rewrite built_nil.
  - apply NoDup_cons in Hnd as [Hk Hnd].
    destruct (Hr k) as [pdf Hpdf]; [by left|].
    destruct (IH (built [(k, pdf)] w) Hnd) as (done & Hdone & Hall & Hrun).
    + intros j Hj. apply writable_target_built; [by intros ->|]. apply Hw. by right.
    + intros j Hj. apply Hr. by right.
    + exists ((k, pdf) :: done). split_and!.
      * rewrite fmap_cons. by f_equal.
      * constructor; [done|]. eapply Forall_impl; [exact Hall|].
        intros [k' pdf'] H. exact H.
      * simpl. unfold mbind, M_bind, bind.
        rewrite (builder_succeeds render k w pdf Hpdf); [|apply Hw; by left].
        rewrite (built_cons _ done). rewrite <- Hrun. f_equal.
Qed.

Lemma absent_below_documents f k :
  well_formed f ->
  entries f !! "documents" = None ->
  entries f !! output_path k = None.
Proof.
  intros Hwf Hd. destruct (entries f !! output_path k) as [n|] eqn:Hk; [|done].
  specialize (Hwf _ _ Hk). simpl in Hwf. rewrite dirname_output in Hwf.
  destruct Hwf as [?|Hdir]; [done|]. unfold isdir in Hdir. by rewrite Hd in Hdir.
Qed.

(** C5: the directory documents/ is created by the one call on line 20,
    before anything else the run does, and only if it is absent.  From a
    fresh trace: a prelude that succeeds either found the directory and
    left the file system alone, or found the name free and made the
    directory; a run records a creation at most once, as its very first
    event, hence before any build; and a run started without documents/
    in a well-formed, writable working directory, with ReportLab installed
    and stories the layout engine accepts, creates the directory, writes
    the three files and ends normally without an error report. *)
Theorem C5_directory_created_once_if_absent (render : renderer) w :
  trace w = [] ->
  (forall w1, prelude w = (w1, inr tt) ->
     (isdir "documents" (fs w) = true /\ fs w1 = fs w /\
      List.filter is_mkdir (trace w1) = []) \/
     (entries (fs w) !! "documents" = None /\
      fs w1 = set_entry "documents" (NDir true) (fs w) /\
      List.filter is_mkdir (trace w1) = [EvMkdir "documents"])) /\
  (forall i ev, trace (run render w).1 !! i = Some ev -> is_mkdir ev = true ->
     i = 0 /\ ev = EvMkdir "documents") /\
  (reportlab_installed w = true ->
   cwd_writable (fs w) = true ->
   well_formed (fs w) ->
   entries (fs w) !! "documents" = None ->
   (forall k, exists pdf,
      render (clock w) (template_of k) (story_of k (clock w)) = inr pdf) ->
   exists w',
     run render w = (w', Finished) /\
     isdir "documents" (fs w') = true /\
     trace w' !! 0 = Some (EvMkdir "documents") /\
     (forall k, exists pdf,
        entries (fs w') !! output_path k = Some (NFile true pdf)) /\
     List.filter is_error_report (trace w') = []).
Proof.
  intros Hfresh. split_and!.
  - intros w1 Hpre.
    destruct (prelude_cases _ _ Hfresh Hpre) as (_ & _ & [(Hd & Hfs & ->)|(Hd & Hmk & ->)]).
    + by left.
    + right. revert Hmk Hd. unfold mkdir, isdir. simpl.
      destruct (entries (fs w) !! "documents") as [n|]; [done|].
      destruct (cwd_writable (fs w)); [|done]. by intros [= <-].
  - intros i ev Hi Hev.
    destruct (prelude w) as [w1 [e|[]]] eqn:Hpre.
    { revert Hi. rewrite run_eq, Hpre, (prelude_fails _ _ _ Hpre); simpl.
      by rewrite Hfresh. }
    destruct (run_shape render _ _ Hpre) as (done & tail & _ & _ & _ & Htr & Hend).
    assert (Hrest : Forall (fun ev => is_mkdir ev = false)
              (flat_map (fun kp => build_events kp.1 kp.2) done ++ tail)).
    { apply Forall_app_2.
      - eapply Forall_impl; [apply built_events_no_report|]. by intros ? (? & ? & ? & ?).
      - destruct Hend as [(_ & _ & -> & _)
                         |(e & k & rest & left & _ & _ & _ & _ & [(_ & -> & _)|(_ & -> & _)])].
        + repeat constructor.
        + apply Forall_app_2; [|repeat constructor].
          eapply Forall_impl; [apply crash_events_quiet|]. by intros ? (? & ? & ? & ?).
        + eapply Forall_impl; [apply crash_events_quiet|]. by intros ? (? & ? & ? & ?). }
    assert (Hnot : forall j, (flat_map (fun kp => build_events kp.1 kp.2) done ++ tail)
                      !! j = Some ev -> False).
    { intros j Hj. rewrite Forall_forall in Hrest.
      apply list_elem_of_lookup_2 in Hj. apply Hrest in Hj. congruence. }
    rewrite Htr in Hi.
    destruct (prelude_cases _ _ Hfresh Hpre) as (_ & _ & [(_ & _ & Ht)|(_ & _ & Ht)]);
      rewrite Ht in Hi.
    + destruct i as [|i]; simpl in Hi; [by injection Hi as <-|].
      by apply Hnot in Hi.
    + destruct i as [|[|i]]; simpl in Hi.
      * by injection Hi as <-.
      * by injection Hi as <-.
      * by apply Hnot in Hi.
  - intros Hinst Hcwd Hwf Habsent Hrender.
    set (w1 := World (set_entry "documents" (NDir true) (fs w)) (clock w)
                 (reportlab_installed w)
                 [ EvMkdir "documents";
                   EvPrint "Creating mock documents for Lighthouse Smart Vault..." ]).
    assert (Hpre : prelude w = (w1, inr tt)).
    { rewrite prelude_eq, Hinst. unfold makedirs_exist_ok, mkdir, isdir; simpl.
      rewrite Habsent, Hcwd, Hfresh. unfold w1. by rewrite Hinst. }
    destruct (run_builders_succeed render build_sequence w1) as (done & Hdone & _ & Hrun).
    + by apply (bool_decide_unpack _).
    + intros k _. unfold writable_target; simpl.
      rewrite lookup_insert_eq, lookup_insert_ne; [|by destruct k].
      by rewrite (absent_below_documents _ _ Hwf Habsent).
    + intros k _. apply Hrender.
    + exists (World (fs (built done w1)) (clock w1) (reportlab_installed w1)
                (trace (built done w1) ++ report_events)).
      split_and!.
      * by rewrite run_eq, Hpre, try_body_eq, Hrun.
      * pose proof (built_lookup_documents done w1) as Hd.
        unfold isdir. cbn [fs]. rewrite Hd. simpl. by rewrite lookup_insert_eq.
      * done.
      * intros k. destruct (built_lookup_own done w1 k) as (pdf & _ & Hl).
        -- rewrite Hdone. by apply (bool_decide_unpack _).
        -- rewrite Hdone. destruct k; unfold build_sequence; set_solver.
        -- by exists pdf.
      * simpl. rewrite !List.filter_app. simpl.
        rewrite (filter_none is_error_report (flat_map _ done)); [done|].
        eapply Forall_impl; [apply built_events_no_report|]. by intros ? (? & ? & ? & ?).
Qed.

Lemma C5_directory_created_once_if_absent_witness :
  trace w_fresh = [] /\
  reportlab_installed w_fresh = true /\
  cwd_writable (fs w_fresh) = true /\
  well_formed (fs w_fresh) /\
  entries (fs w_fresh) !! "documents" = None /\
  (forall k, exists pdf,
     toy_render (clock w_fresh) (template_of k) (story_of k (clock w_fresh)) = inr pdf) /\
  exists w',
    run toy_render w_fresh = (w', Finished) /\
    isdir "documents" (fs w') = true /\
    trace w' !! 0 = Some (EvMkdir "documents") /\
    (forall k, exists pdf,
       entries (fs w') !! output_path k = Some (NFile true pdf)) /\
    List.filter is_error_report (trace w') = [].
Proof.
  assert (Hwf : well_formed (fs w_fresh)) by apply map_Forall_empty.
  assert (Hr : forall k, exists pdf,
     toy_render (clock w_fresh) (template_of k) (story_of k (clock w_fresh)) = inr pdf)
    by (intros k; eexists; reflexivity).
  split_and!; [reflexivity..|exact Hwf|reflexivity|exact Hr|].
  apply (C5_directory_created_once_if_absent toy_render w_fresh);
    [reflexivity..|exact Hwf|reflexivity|exact Hr].
Defined.


Lemma prelude_keeps_directory w w1 :
  isdir "documents" (fs w) = true ->
  prelude w = (w1, inr tt) ->
  fs w1 = fs w /\ clock w1 = clock w.
Proof.
  intros Hdir. rewrite prelude_eq. destruct (reportlab_installed w); [|done].
  unfold makedirs_exist_ok. rewrite Hdir.
  assert (Hmk : exists e, mkdir "documents" (fs w) = inl e).
  { revert Hdir. unfold isdir, mkdir; simpl.
    destruct (entries (fs w) !! "documents") as [n|]; [by eexists|done]. }
  destruct Hmk as [e ->]. by intros [= <-].
Qed.

(** C6: a successful run that starts with documents/ present and empty
    leaves exactly three files in it, those of the three kinds, and each
    is of non-zero size, the layout engine never producing an empty PDF. *)
Theorem C6_empty_directory_gets_three_files (render : renderer) w w1 w2 :
  (forall k pdf,
     render (clock w) (template_of k) (story_of k (clock w)) = inr pdf -> pdf <> []) ->
  isdir "documents" (fs w) = true ->
  listdir "documents" (fs w) = ∅ ->
  prelude w = (w1, inr tt) ->
  run_builders render build_sequence w1 = (w2, inr tt) ->
  exists pdf1 pdf2 pdf3,
    (run render w).2 = Finished /\
    listdir "documents" (fs (run render w).1) =
      <["documents/State_ID_Card.pdf" := NFile true pdf3]>
        (<["documents/Last_Will_and_Testament.pdf" := NFile true pdf2]>
           (<["documents/Life_Insurance_Policy.pdf" := NFile true pdf1]> ∅)) /\
    size (listdir "documents" (fs (run render w).1)) = 3 /\
    pdf1 <> [] /\ pdf2 <> [] /\ pdf3 <> [].
Proof.
  intros Hnonempty Hdir Hempty Hpre Hrun.
  destruct (prelude_keeps_directory _ _ Hdir Hpre) as [Hfs Hclock].
  destruct (run_builders_ok _ _ _ _ Hrun) as (done & -> & Hall & Hseq).
  destruct done as [|[k1 pdf1] [|[k2 pdf2] [|[k3 pdf3] [|? ?]]]]; try done.
  injection Hseq as -> -> ->. exists pdf1, pdf2, pdf3.
  assert (Hlist : listdir "documents" (fs (run render w).1) =
      <["documents/State_ID_Card.pdf" := NFile true pdf3]>
        (<["documents/Last_Will_and_Testament.pdf" := NFile true pdf2]>
           (<["documents/Life_Insurance_Policy.pdf" := NFile true pdf1]> ∅))).
  { rewrite run_eq, Hpre, try_body_eq, Hrun. unfold listdir in *. simpl.
    rewrite Hfs. rewrite !map_filter_insert_True by done. by rewrite Hempty. }
  rewrite run_eq, Hpre, try_body_eq, Hrun in Hlist |- *.
  split_and!; [done|exact Hlist| |..].
  - rewrite Hlist. rewrite !map_size_insert_None, map_size_empty; [done|..].
    + apply lookup_empty.
    + by rewrite lookup_insert_ne.
    + by rewrite !lookup_insert_ne.
  - apply (Hnonempty LifeInsurance). rewrite <- Hclock.
    by apply (Forall_inv Hall).
  - apply (Hnonempty WillAndTestament). rewrite <- Hclock.
    by apply (Forall_inv (Forall_inv_tail Hall)).
  - apply (Hnonempty StateID). rewrite <- Hclock.
    by apply (Forall_inv (Forall_inv_tail (Forall_inv_tail Hall))).
Qed.

Lemma C6_empty_directory_gets_three_files_witness :
  (forall k pdf,
     toy_render (clock w_ready) (template_of k) (story_of k (clock w_ready)) = inr pdf ->
     pdf <> []) /\
  isdir "documents" (fs w_ready) = true /\
  listdir "documents" (fs w_ready) = ∅ /\
  prelude w_ready = ((prelude w_ready).1, inr tt) /\
  run_builders toy_render build_sequence (prelude w_ready).1
    = ((run_builders toy_render build_sequence (prelude w_ready).1).1, inr tt) /\
  size (listdir "documents" (fs (run toy_render w_ready).1)) = 3.
Proof.
  assert (Hne : forall k pdf,
     toy_render (clock w_ready) (template_of k) (story_of k (clock w_ready)) = inr pdf ->
     pdf <> []) by (intros k pdf [= <-]; discriminate).
  assert (Hempty : listdir "documents" (fs w_ready) = ∅).
  { unfold listdir, w_ready; simpl. by rewrite map_filter_singleton_False. }
  split_and!; [exact Hne|reflexivity|exact Hempty|vm_compute; reflexivity..|].
  destruct (C6_empty_directory_gets_three_files toy_render w_ready (prelude w_ready).1
              (run_builders toy_render build_sequence (prelude w_ready).1).1
              Hne eq_refl Hempty)
    as (pdf1 & pdf2 & pdf3 & _ & _ & Hsize & _); [vm_compute; reflexivity..|].
  exact Hsize.
Defined.

(* ===================================================================== *)
(** * Running a builder again *)
(* ===================================================================== *)

(** C7: a builder run again over its own output overwrites the file at the
    same path without error, and the content may change.  After a
    successful build, a second build at a later time succeeds whenever the
    layout engine does; the path then holds the bytes of the second
    render, the other entries and the set of names are as before.  The
    story of the life insurance policy holds the current date as formatted
    by strftime, so stories built on dates that format differently differ;
    and for the toy engine, built on two consecutive days, the two files
    differ. *)
Theorem C7_rebuild_overwrites_same_path :
  (forall (render : renderer) k w w1 t2 pdf2,
     builder render k w = (w1, inr tt) ->
     render t2 (template_of k) (story_of k t2) = inr pdf2 ->
     exists pdf1 w2,
       entries (fs w1) !! output_path k = Some (NFile true pdf1) /\
       builder render k (set_clock t2 w1) = (w2, inr tt) /\
       entries (fs w2) !! output_path k = Some (NFile true pdf2) /\
       (forall p, p <> output_path k ->
                  entries (fs w2) !! p = entries (fs w1) !! p) /\
       (forall p, is_Some (entries (fs w2) !! p) <-> is_Some (entries (fs w1) !! p))) /\
  (forall t,
     ["<b>Policy Date:</b>"; Datetime.strftime_B_d_Y t] ∈ policy_data t) /\
  (forall t t',
     Datetime.strftime_B_d_Y t <> Datetime.strftime_B_d_Y t' ->
     story_of LifeInsurance t <> story_of LifeInsurance t') /\
  (forall k t t', k <> LifeInsurance -> story_of k t = story_of k t') /\
  (exists w1 w2 pdf1 pdf2,
     builder toy_render LifeInsurance (prelude w_fresh).1 = (w1, inr tt) /\
     builder toy_render LifeInsurance (set_clock nov_4 w1) = (w2, inr tt) /\
     entries (fs w1) !! output_path LifeInsurance = Some (NFile true pdf1) /\
     entries (fs w2) !! output_path LifeInsurance = Some (NFile true pdf2) /\
     pdf1 <> pdf2).
Proof.
  split_and!.
  - intros render k w w1 t2 pdf2 Hb Hr2.
    destruct (builder_ok _ _ _ _ Hb) as (pdf1 & _ & Hwrite & ->).
    assert (Hdoc : exists b, entries (fs w) !! "documents" = Some (NDir b)).
    { revert Hwrite. unfold write_file, open_wb.
      rewrite dirname_output, lookup_documents.
      destruct (entries (fs w) !! "documents") as [[b|? ?]|]; [by eexists|done..]. }
    destruct Hdoc as [b Hdoc].
    set (w1 := World _ _ _ _).
    assert (Hb2 : builder render k (set_clock t2 w1) =
      (World (set_entry (output_path k) (NFile true pdf2) (fs w1)) t2
         (reportlab_installed w1) (trace w1 ++ build_events k pdf2), inr tt)).
    { assert (Hw2 : write_file (output_path k) pdf2 (fs w1)
                    = inr (set_entry (output_path k) (NFile true pdf2) (fs w1))).
      { destruct (write_file (output_path k) pdf2 (fs w1)) as [e|f'] eqn:Hf;
          [|by rewrite (write_file_ok _ _ _ _ Hf)].
        exfalso. revert Hf. unfold write_file, open_wb.
        rewrite dirname_output, lookup_documents. simpl.
        rewrite lookup_insert_ne by apply output_path_not_documents.
        by rewrite Hdoc, lookup_insert_eq. }
      rewrite builder_unfold.
      change (clock (set_clock t2 w1)) with t2.
      change (fs (set_clock t2 w1)) with (fs w1).
      rewrite Hr2, Hw2. unfold emit, set_fs; simpl.
      by rewrite <- app_assoc. }
    exists pdf1. eexists. split_and!; [|exact Hb2|..]; simpl.
    + apply lookup_insert_eq.
    + apply lookup_insert_eq.
    + intros p Hp. by rewrite lookup_insert_ne.
    + intros p. rewrite lookup_insert_is_Some'. split; [|by right].
      intros [<-|?]; [|done]. rewrite lookup_insert_eq. by eexists.
  - intros t. unfold policy_data. rewrite !elem_of_cons. do 4 right. by left.
  - intros t t' Hne Heq. apply Hne. simpl in Heq. unfold life_story, policy_data in Heq.
    by simplify_eq.
  - by intros [] t t' Hk.
  - eexists _, _, _, _. split_and!; [vm_compute; reflexivity..|].
    intros Heq. vm_compute in Heq. discriminate.
Qed.

Lemma C7_rebuild_overwrites_same_path_witness :
  builder toy_render StateID w_ready
    = ((builder toy_render StateID w_ready).1, inr tt) /\
  toy_render nov_4 (template_of StateID) (story_of StateID nov_4)
    = inr (pdf_header ++ bytes_of_string
             (String.concat newline (map flowable_text id_story))) /\
  exists pdf1 w2,
    entries (fs (builder toy_render StateID w_ready).1) !! output_path StateID
      = Some (NFile true pdf1) /\
    builder toy_render StateID (set_clock nov_4 (builder toy_render StateID w_ready).1)
      = (w2, inr tt).
Proof.
  split_and!; [vm_compute; reflexivity..|].
  destruct (proj1 C7_rebuild_overwrites_same_path toy_render StateID w_ready
              (builder toy_render StateID w_ready).1 nov_4
              (pdf_header ++ bytes_of_string
                 (String.concat newline (map flowable_text id_story))))
    as (pdf1 & w2 & H1 & H2 & _); [vm_compute; reflexivity..|].
  by exists pdf1, w2.
Defined.


(* ===================================================================== *)
(** * Further properties of the script *)
(* ===================================================================== *)

(** ** Before the try block: the import and line 20 *)

Lemma makedirs_cases f f' :
  makedirs_exist_ok "documents" f = inr f' ->
  (isdir "documents" f = true /\ f' = f) \/
  (isdir "documents" f = false /\ entries f !! "documents" = None /\
   cwd_writable f = true /\ f' = set_entry "documents" (NDir true) f).
Proof.
  unfold makedirs_exist_ok, mkdir, isdir; simpl.
  destruct (entries f !! "documents") as [[b|b c]|]; [by intros [= <-]; left|done|].
  destruct (cwd_writable f); [|done]. intros [= <-]. by right.
Qed.

Lemma makedirs_fails f e :
  makedirs_exist_ok "documents" f = inl e ->
  (e = file_exists_error "documents" /\
   exists b c, entries f !! "documents" = Some (NFile b c)) \/
  (e = permission_error "documents" /\
   entries f !! "documents" = None /\ cwd_writable f = false).
Proof.
  unfold makedirs_exist_ok, mkdir, isdir; simpl.
  destruct (entries f !! "documents") as [[b|b c]|]; [done| |].
  - intros [= <-]. left. eauto.
  - destruct (cwd_writable f); [done|]. intros [= <-]. by right.
Qed.

Lemma isdir_set_documents f : isdir "documents" (set_entry "documents" (NDir true) f) = true.
Proof. unfold isdir; simpl. by rewrite lookup_insert_eq. Qed.

(** X1: Importing the module instead of running it (the guard on line 299 is
    false) executes the imports and line 20 only.  The layout engine is
    not consulted, nothing is printed, the trace grows by at most the
    creation of documents, no other path changes, documents is a
    directory when the import succeeds, and a failing import leaves the
    world as it was. *)
Theorem import_only_makes_the_directory (render render' : renderer) w :
  module_body render false w = module_body render' false w /\
  (exists mk,
     trace (module_body render false w).1 = trace w ++ mk /\
     (mk = [] \/ mk = [EvMkdir "documents"])) /\
  (forall p, p <> "documents" ->
     entries (fs (module_body render false w).1) !! p = entries (fs w) !! p) /\
  (forall u, (module_body render false w).2 = inr u ->
     isdir "documents" (fs (module_body render false w).1) = true) /\
  (forall e, (module_body render false w).2 = inl e ->
     (module_body render false w).1 = w).
Proof.
  split; [done|].
  unfold module_body, import_reportlab, os_makedirs_exist_ok, mbind, M_bind, bind.
  destruct (reportlab_installed w) eqn:Hi.
  2:{ simpl. split_and!; [exists []; rewrite app_nil_r; auto|done..]. }
  destruct (makedirs_exist_ok "documents" (fs w)) as [e|f'] eqn:Hmk.
  { simpl. split_and!; [exists []; rewrite app_nil_r; auto|done..]. }
  destruct (makedirs_cases _ _ Hmk) as [[Hd ->]|(Hd & Habs & _ & ->)]; rewrite Hd; simpl.
  - split_and!; [exists []; rewrite app_nil_r; auto|done..].
  - split_and!; [exists [EvMkdir "documents"]; auto| |by intros; apply isdir_set_documents|done].
    intros p Hp. by rewrite lookup_insert_ne.
Qed.

Lemma import_only_makes_the_directory_witness :
  (module_body toy_render false w_fresh).2 = inr tt /\
  isdir "documents" (fs (module_body toy_render false w_fresh).1) = true /\
  entries (fs (module_body toy_render false w_fresh).1) !! "documents/State_ID_Card.pdf"
    = entries (fs w_fresh) !! "documents/State_ID_Card.pdf".
Proof.
  split; [reflexivity|].
  destruct (import_only_makes_the_directory toy_render strict_render w_fresh)
    as (_ & _ & Hframe & Hdir & _).
  split; [by apply (Hdir tt)|by apply Hframe].
Defined.

(** X2: The run reaches the try block exactly when ReportLab is installed and
    documents is a directory already or can be made in a writable working
    directory; documents is then a directory.  Otherwise the prelude
    raises, with the world untouched: ModuleNotFoundError without
    ReportLab, FileExistsError when the name is taken by a file,
    PermissionError when the name is free in a read-only directory. *)
Theorem prelude_succeeds_iff w :
  ((exists w1, prelude w = (w1, inr tt)) <->
   reportlab_installed w = true /\
   (isdir "documents" (fs w) = true \/
    (entries (fs w) !! "documents" = None /\ cwd_writable (fs w) = true))) /\
  (forall w1, prelude w = (w1, inr tt) -> isdir "documents" (fs w1) = true) /\
  (forall w1 e, prelude w = (w1, inl e) ->
     w1 = w /\
     ((e = module_not_found "reportlab" /\ reportlab_installed w = false) \/
      (e = file_exists_error "documents" /\
       exists b c, entries (fs w) !! "documents" = Some (NFile b c)) \/
      (e = permission_error "documents" /\
       entries (fs w) !! "documents" = None /\ cwd_writable (fs w) = false))).
Proof.
  rewrite prelude_eq. destruct (reportlab_installed w) eqn:Hi.
  2:{ split_and!.
      - split; [by intros [w1 [=]]|by intros [[=] _]].
      - by intros w1 [=].
      - intros w1 e [= <- <-]. split; [done|]. by left. }
  destruct (makedirs_exist_ok "documents" (fs w)) as [e|f'] eqn:Hmk.
  - destruct (makedirs_fails _ _ Hmk) as [(-> & b & c & Hf)|(-> & Habs & Hcwd)].
    + split_and!.
      * split; [by intros [w1 [=]]|]. unfold isdir. rewrite Hf.
        by intros [_ [[=]|[[=] _]]].
      * by intros w1 [=].
      * intros w1 e [= <- <-]. split; [done|]. right; left. eauto.
    + split_and!.
      * split; [by intros [w1 [=]]|]. unfold isdir. rewrite Habs, Hcwd.
        by intros [_ [[=]|[_ [=]]]].
      * by intros w1 [=].
      * intros w1 e [= <- <-]. split; [done|]. by right; right.
  - destruct (makedirs_cases _ _ Hmk) as [[Hd ->]|(Hd & Habs & Hcwd & ->)].
    + split_and!.
      * split; [auto|by eexists].
      * by intros w1 [= <-].
      * by intros w1 e [=].
    + split_and!.
      * split; [auto|by eexists].
      * intros w1 [= <-]. apply isdir_set_documents.
      * by intros w1 e [=].
Qed.

Lemma prelude_succeeds_iff_witness :
  prelude w_blocked = (w_blocked, inl (file_exists_error "documents")) /\
  entries (fs w_blocked) !! "documents" = Some (NFile true []).
Proof.
  split; [vm_compute; reflexivity|].
  destruct (prelude_succeeds_iff w_blocked) as (_ & _ & Herr).
  destruct (Herr w_blocked (file_exists_error "documents")) as (_ & [[[=] _]|[_|[[=] _]]]);
    [vm_compute; reflexivity|].
  reflexivity.
Defined.


(** ** How a run ends *)

(** X3: A run ends with an exception uncaught in two cases only: the prelude
    raised it, or the try block raised it and it is not an Exception (a
    KeyboardInterrupt); in the second case the handler printed nothing,
    the world being the one the try block left.  In every other case the
    run ends normally; so the exit status is 0 unless one of the two cases
    holds. *)
Theorem uncaught_iff (render : renderer) w e :
  ((run render w).2 = Uncaught e <->
   (exists w1, prelude w = (w1, inl e)) \/
   (exists w1 w2,
      prelude w = (w1, inr tt) /\ try_body render w1 = (w2, inl e) /\
      catchable e = false)) /\
  (forall w1 w2,
     prelude w = (w1, inr tt) -> try_body render w1 = (w2, inl e) ->
     catchable e = false -> run render w = (w2, Uncaught e)) /\
  (exit_status (run render w).2 <> 0%Z <-> exists e', (run render w).2 = Uncaught e').
Proof.
  rewrite run_eq.
  destruct (prelude w) as [w1 [e1|[]]] eqn:Hpre.
  { split_and!.
    - split; [intros [= ->]; left; eauto|].
      by intros [[? [= _ ->]]|(? & ? & [=] & _)].
    - by intros ? ? [=].
    - split; [by eexists|done]. }
  destruct (try_body render w1) as [w2 [e2|[]]] eqn:Hbody.
  2:{ split_and!.
      - split; [done|]. intros [[? [=]]|(? & ? & [= <-] & Hb & _)].
        rewrite Hbody in Hb. discriminate.
      - intros ? ? [= <-] Hb. rewrite Hbody in Hb. discriminate.
      - split; [done|by intros [? [=]]]. }
  destruct (catchable e2) eqn:Hc.
  - split_and!.
    + split; [done|]. intros [[? [=]]|(? & ? & [= <-] & Hb & Hc')].
      rewrite Hbody in Hb. injection Hb as _ ->. congruence.
    + intros ? ? [= <-] Hb Hc'. rewrite Hbody in Hb. injection Hb as _ ->. congruence.
    + split; [done|by intros [? [=]]].
  - split_and!.
    + split.
      * intros [= ->]. right. by exists w1, w2.
      * intros [[? [=]]|(? & ? & [= <-] & Hb & _)].
        rewrite Hbody in Hb. by injection Hb as _ ->.
    + intros ? ? [= <-] Hb _. rewrite Hbody in Hb. by injection Hb as -> ->.
    + split; [by eexists|done].
Qed.

Lemma uncaught_iff_witness :
  prelude w_fresh = ((prelude w_fresh).1, inr tt) /\
  try_body interrupted_render (prelude w_fresh).1
    = ((try_body interrupted_render (prelude w_fresh).1).1,
       inl (Exn KeyboardInterrupt "")) /\
  catchable (Exn KeyboardInterrupt "") = false /\
  run interrupted_render w_fresh
    = ((try_body interrupted_render (prelude w_fresh).1).1,
       Uncaught (Exn KeyboardInterrupt "")).
Proof.
  split_and!; [vm_compute; reflexivity..|].
  apply (proj1 (proj2 (uncaught_iff interrupted_render w_fresh
                         (Exn KeyboardInterrupt ""))) (prelude w_fresh).1);
    vm_compute; reflexivity.
Defined.

(** ** What a run leaves on disk *)

Lemma prelude_fs w w1 r :
  prelude w = (w1, r) ->
  fs w1 = fs w \/
  (entries (fs w) !! "documents" = None /\
   fs w1 = set_entry "documents" (NDir true) (fs w)).
Proof.
  rewrite prelude_eq. destruct (reportlab_installed w); [|by intros [= <-]; left].
  destruct (makedirs_exist_ok _ _) as [e|f'] eqn:Hmk; [by intros [= <-]; left|].
  intros [= <- _]; simpl.
  destruct (makedirs_cases _ _ Hmk) as [[_ ->]|(_ & Habs & _ & ->)]; auto.
Qed.

(** The file system a run ends with: that of the prelude, then the builds
    that succeeded, then what a failing save wrote of its file. *)
Lemma run_fs render w :
  exists w1 r done k left,
    prelude w = (w1, r) /\
    fs (run render w).1 = fs (crashed k left (built done w1)).
Proof.
  destruct (prelude w) as [w1 [e|[]]] eqn:Hpre.
  - exists w1, (inl e), [], LifeInsurance, None. split; [done|].
    by rewrite run_eq, Hpre, built_nil.
  - destruct (run_shape render _ _ Hpre) as (done & tail & _ & _ & _ & _ & Hend).
    destruct Hend as [(_ & _ & _ & _ & Hfs)|(e & k & rest & left & _ & _ & _ & Hfs & _)].
    + by exists w1, (inr tt), done, LifeInsurance, None.
    + by exists w1, (inr tt), done, k, left.
Qed.

Lemma crashed_keeps_entries k left w p :
  is_Some (entries (fs w) !! p) -> is_Some (entries (fs (crashed k left w)) !! p).
Proof.
  intros Hp. destruct left as [part|]; [|done]. simpl.
  rewrite lookup_insert_is_Some'. by right.
Qed.

Lemma built_cwd_writable (done : list (kind * list Byte.byte)) w :
  cwd_writable (fs (built done w)) = cwd_writable (fs w).
Proof.
  revert w. induction done as [|kp done IH]; intros w; [done|].
  by rewrite built_cons, IH.
Qed.

Lemma built_keeps_entries (done : list (kind * list Byte.byte)) w p :
  is_Some (entries (fs w) !! p) -> is_Some (entries (fs (built done w)) !! p).
Proof.
  revert w. induction done as [|kp done IH]; intros w Hp; [done|].
  rewrite built_cons. apply IH. simpl. rewrite lookup_insert_is_Some'. by right.
Qed.

Lemma not_script_path p :
  p ∉ script_paths -> p <> "documents" /\ forall k, output_path k <> p.
Proof.
  unfold script_paths, build_sequence. simpl. rewrite !not_elem_of_cons.
  intros (? & ? & ? & ? & _). split; [done|]. by intros [] <-.
Qed.

(** X4: A run changes nothing outside the four paths the script names: every
    other entry is as before, whatever the outcome.  The write permission
    of the working directory is kept, no entry is ever removed, and an
    entry that already bears the name documents, directory or not, is
    left exactly as it was. *)
Theorem run_touches_only_its_paths (render : renderer) w :
  (forall p, p ∉ script_paths ->
     entries (fs (run render w).1) !! p = entries (fs w) !! p) /\
  cwd_writable (fs (run render w).1) = cwd_writable (fs w) /\
  (forall p, is_Some (entries (fs w) !! p) ->
     is_Some (entries (fs (run render w).1) !! p)) /\
  (forall n, entries (fs w) !! "documents" = Some n ->
     entries (fs (run render w).1) !! "documents" = Some n).
Proof.
  destruct (run_fs render w) as (w1 & r & done & k & left & Hpre & ->).
  split_and!.
  - intros p [Hdoc Hout]%not_script_path.
    rewrite crashed_lookup_other by (intros ->; by apply (Hout k)).
    rewrite built_lookup_other; [|by intros j _].
    destruct (prelude_fs _ _ _ Hpre) as [->|[_ ->]]; [done|].
    simpl. by rewrite lookup_insert_ne.
  - rewrite crashed_cwd_writable, built_cwd_writable.
    by destruct (prelude_fs _ _ _ Hpre) as [->|[_ ->]].
  - intros p Hp. apply crashed_keeps_entries, built_keeps_entries.
    destruct (prelude_fs _ _ _ Hpre) as [->|[_ ->]]; [done|].
    simpl. rewrite lookup_insert_is_Some'. by right.
  - intros n Hn.
    rewrite crashed_lookup_other
      by (intros Heq; symmetry in Heq; by apply output_path_not_documents in Heq).
    rewrite built_lookup_documents.
    destruct (prelude_fs _ _ _ Hpre) as [->|[Habs _]]; [done|congruence].
Qed.

Lemma run_touches_only_its_paths_witness :
  ("notes.txt" ∉ script_paths) /\
  entries (fs (run toy_render w_fresh).1) !! "notes.txt"
    = entries (fs w_fresh) !! "notes.txt".
Proof.
  assert (Hp : "notes.txt" ∉ script_paths).
  { unfold script_paths, build_sequence. simpl. rewrite !not_elem_of_cons.
    split_and!; try discriminate. apply not_elem_of_nil. }
  split; [exact Hp|].
  by apply (run_touches_only_its_paths toy_render w_fresh).
Defined.

(** ** Well-formedness of the file system *)

Lemma write_file_pre k pdf f f' :
  write_file (output_path k) pdf f = inr f' ->
  isdir "documents" f = true /\ isdir (output_path k) f = false.
Proof.
  unfold write_file, open_wb, isdir. rewrite dirname_output, lookup_documents.
  destruct (entries f !! "documents") as [[b|? ?]|]; [|done..].
  by destruct (entries f !! output_path k) as [[?|? ?]|].
Qed.

Lemma isdir_set_entry d q n f :
  isdir d f = true ->
  isdir q f = false \/ (exists b, n = NDir b) ->
  isdir d (set_entry q n f) = true.
Proof.
  intros Hd Hq. unfold isdir in *. simpl.
  destruct (decide (q = d)) as [->|Hne].
  - rewrite lookup_insert_eq. destruct Hq as [Hq|[b ->]]; [congruence|done].
  - by rewrite lookup_insert_ne.
Qed.

Lemma well_formed_set_entry q n f :
  well_formed f ->
  dirname q = "" \/ isdir (dirname q) f = true ->
  isdir q f = false \/ (exists b, n = NDir b) ->
  well_formed (set_entry q n f).
Proof.
  intros Hwf Hq Hn. unfold well_formed. simpl. apply map_Forall_insert_2.
  - destruct Hq as [?|Hq]; [by left|]. right. by apply isdir_set_entry.
  - intros p m Hp. destruct (Hwf p m Hp) as [?|Hd]; [by left|]. right.
    by apply isdir_set_entry.
Qed.

Lemma run_builders_well_formed render ks w w' r :
  well_formed (fs w) ->
  run_builders render ks w = (w', r) ->
  well_formed (fs w').
Proof.
  revert w. induction ks as [|k ks IH]; intros w Hwf; simpl.
  - by intros [= <- _].
  - unfold mbind, M_bind, bind.
    destruct (builder render k w) as [w1 [e|[]]] eqn:Hb.
    + intros [= <- _]. destruct (builder_err _ _ _ _ _ Hb) as ([part|] & -> & Hw); [|done].
      simpl. destruct (write_file_pre _ _ _ _ Hw) as [Hdoc Hout].
      apply well_formed_set_entry; [done| |by left].
      right. by rewrite dirname_output.
    + apply IH. destruct (builder_ok _ _ _ _ Hb) as (pdf & _ & Hw & ->). simpl.
      destruct (write_file_pre _ _ _ _ Hw) as [Hdoc Hout].
      apply well_formed_set_entry; [done| |by left].
      right. by rewrite dirname_output.
Qed.

(** X5: A run keeps the file system well-formed: if every entry below a
    directory had that directory before the run, this still holds after
    it, whatever the outcome.  The script never leaves a file without its
    directory and never puts a file in the place of a directory. *)
Theorem run_keeps_well_formed (render : renderer) w :
  well_formed (fs w) -> well_formed (fs (run render w).1).
Proof.
  intros Hwf. rewrite run_eq.
  destruct (prelude w) as [w1 [e|[]]] eqn:Hpre.
  { simpl. by destruct (prelude_fs _ _ _ Hpre) as [->|[_ ->]];
      [|apply well_formed_set_entry; [done|by left|right; eauto]]. }
  assert (Hwf1 : well_formed (fs w1)).
  { destruct (prelude_fs _ _ _ Hpre) as [->|[_ ->]]; [done|].
    apply well_formed_set_entry; [done|by left|right; eauto]. }
  rewrite try_body_eq.
  destruct (run_builders render build_sequence w1) as [w2 r] eqn:Hrun.
  pose proof (run_builders_well_formed _ _ _ _ _ Hwf1 Hrun) as Hwf2.
  destruct r as [e|[]]; [|done]. by destruct (catchable e).
Qed.

Lemma run_keeps_well_formed_witness :
  well_formed (fs w_ready) /\ well_formed (fs (run toy_render w_ready).1).
Proof.
  assert (Hwf : well_formed (fs w_ready)).
  { unfold well_formed, w_ready; simpl. apply map_Forall_singleton. by left. }
  split; [exact Hwf|].
  by apply (run_keeps_well_formed toy_render w_ready).
Defined.

(** ** No cleanup after a failure *)

(** X6: There is no cleanup after a failure.  When a build raises, the
    files of the builds that succeeded before it stay on disk with the
    bytes the layout engine produced for them, whether or not the
    exception is caught.  The file of the failing build stays as its save
    left it: untouched if the save never opened it, and otherwise
    holding the part that was written when the write raised.  The paths
    of the kinds after it are as they were when the try block was
    entered. *)
Theorem earlier_files_survive_a_failure (render : renderer) w w1 w2 e :
  prelude w = (w1, inr tt) ->
  run_builders render build_sequence w1 = (w2, inl e) ->
  exists done k rest wk left,
    build_sequence = done ++ k :: rest /\
    run_builders render done w1 = (wk, inr tt) /\
    builder render k wk = (w2, inl e) /\
    w2 = crashed k left wk /\
    (forall j, j ∈ done ->
       exists pdf,
         render (clock w1) (template_of j) (story_of j (clock w1)) = inr pdf /\
         entries (fs (run render w).1) !! output_path j = Some (NFile true pdf)) /\
    entries (fs (run render w).1) !! output_path k
      = match left with
        | None => entries (fs w1) !! output_path k
        | Some part => Some (NFile true part)
        end /\
    (forall j, j ∈ rest ->
       entries (fs (run render w).1) !! output_path j
         = entries (fs w1) !! output_path j).
Proof.
  intros Hpre Hrun.
  assert (Hfs : fs (run render w).1 = fs w2).
  { rewrite run_eq, Hpre, try_body_eq, Hrun. by destruct (catchable e). }
  rewrite Hfs.
  destruct (run_builders_inv _ _ _ _ _ Hrun)
    as (done & Hall & Hdone & k & rest & left & Hseq & Hk & ->).
  exists done.*1, k, rest, (built done w1), left.
  assert (Hnd : NoDup (done.*1 ++ k :: rest)).
  { rewrite <- Hseq. by apply (bool_decide_unpack _). }
  apply NoDup_app in Hnd as (Hnd1 & Hdisj & Hnd2).
  apply NoDup_cons in Hnd2 as [Hk_rest _].
  assert (Hk_done : forall i, i ∈ done.*1 -> output_path i <> output_path k).
  { intros i Hi Heq. apply output_path_inj in Heq as ->. apply (Hdisj _ Hi). by left. }
  split_and!; [done..| | |].
  - intros j Hj. destruct (built_lookup_own done w1 j Hnd1 Hj) as (pdf & Hin & Hl).
    exists pdf. split.
    + rewrite Forall_forall in Hall. exact (Hall _ Hin).
    + rewrite crashed_lookup_other; [done|]. by apply Hk_done.
  - destruct left as [part|]; simpl.
    + apply lookup_insert_eq.
    + by apply built_lookup_other.
  - intros j Hj. rewrite crashed_lookup_other.
    + apply built_lookup_other. intros i Hi Heq.
      apply output_path_inj in Heq as ->. apply (Hdisj _ Hi). by right.
    + intros Heq. apply output_path_inj in Heq as ->. done.
Qed.

Lemma earlier_files_survive_a_failure_witness :
  prelude w_fresh = ((prelude w_fresh).1, inr tt) /\
  run_builders full_disk_render build_sequence (prelude w_fresh).1
    = ((run_builders full_disk_render build_sequence (prelude w_fresh).1).1,
       inl (no_space_error will_filename)) /\
  entries (fs (run full_disk_render w_fresh).1) !! will_filename
    = Some (NFile true pdf_header) /\
  exists done k rest,
    build_sequence = done ++ k :: rest /\
    forall j, j ∈ done ->
      exists pdf,
        entries (fs (run full_disk_render w_fresh).1) !! output_path j
          = Some (NFile true pdf).
Proof.
  split_and!; [vm_compute; reflexivity..|].
  destruct (earlier_files_survive_a_failure full_disk_render w_fresh (prelude w_fresh).1
              (run_builders full_disk_render build_sequence (prelude w_fresh).1).1
              (no_space_error will_filename))
    as (done & k & rest & wk & left & Hseq & _ & _ & _ & Hdone & _);
    [vm_compute; reflexivity..|].
  exists done, k, rest. split; [exact Hseq|].
  intros j Hj. destruct (Hdone j Hj) as (pdf & _ & Hl). by exists pdf.
Defined.

(** ** What a run prints and writes *)

Lemma writes_built (done : list (kind * list Byte.byte)) :
  List.filter is_write (flat_map (fun kp => build_events kp.1 kp.2) done)
    = map (fun kp => EvWrite (output_path kp.1) kp.2) done.
Proof.
  induction done as [|[k pdf] done IH]; [done|]. simpl. f_equal. exact IH.
Qed.

Lemma writes_crash k left : List.filter is_write (crash_events k left) = crash_events k left.
Proof. by destruct left. Qed.

(** X7: The lines the script hands to print in a run that got past the
    prelude, in order: the banner, one Created line for each builder that
    was called and succeeded, in the order of the sequence, and then
    either the two lines of the report (all three built), or the error
    line and the hint (the next builder raised an Exception, which was
    caught), or nothing more (it raised an exception that is not an
    Exception, which stays uncaught).  The listing that the subprocess of
    the report writes to the same standard output is not a print of the
    script and is not among these lines. *)
Theorem printed_lines_of_a_run (render : renderer) w w1 :
  trace w = [] ->
  prelude w = (w1, inr tt) ->
  exists ks wk,
    run_builders render ks w1 = (wk, inr tt) /\
    ((ks = build_sequence /\
      printed (trace (run render w).1) =
        "Creating mock documents for Lighthouse Smart Vault..."
        :: map created_line ks
        ++ [newline +:+ "Documents created successfully!"; "Documents directory:"]) \/
     (exists k rest w2 e,
        build_sequence = ks ++ k :: rest /\
        builder render k wk = (w2, inl e) /\
        ((catchable e = true /\
          (run render w).2 = Finished /\
          printed (trace (run render w).1) =
            "Creating mock documents for Lighthouse Smart Vault..."
            :: map created_line ks
            ++ [ "Error creating documents: " +:+ exn_str e;
                 "Please ensure ReportLab is installed: pip install reportlab" ]) \/
         (catchable e = false /\
          (run render w).2 = Uncaught e /\
          printed (trace (run render w).1) =
            "Creating mock documents for Lighthouse Smart Vault..."
            :: map created_line ks)))).
Proof.
  intros Hfresh Hpre.
  destruct (prelude_printed _ _ Hfresh Hpre) as [Hout _].
  destruct (run_shape render _ _ Hpre)
    as (done & tail & _ & _ & Hdone & Htr & Hend).
  exists done.*1, (built done w1). split; [done|].
  rewrite Htr, !printed_app, Hout, printed_built.
  destruct Hend as [(_ & Heq & -> & _)
                   |(e & k & rest & left & _ & Hseq & Hk & _ & [(Hc & -> & Hfin)|(Hc & -> & Hunc)])].
  - left. by split.
  - right. exists k, rest, (crashed k left (built done w1)), e.
    split_and!; [done..|]. left. split_and!; [done..|].
    by rewrite printed_app, printed_crash.
  - right. exists k, rest, (crashed k left (built done w1)), e.
    split_and!; [done..|]. right. split_and!; [done..|].
    rewrite printed_crash. simpl. by rewrite app_nil_r.
Qed.

Lemma printed_lines_of_a_run_witness :
  trace w_readonly = [] /\
  prelude w_readonly = ((prelude w_readonly).1, inr tt) /\
  printed (trace (run toy_render w_readonly).1) =
    [ "Creating mock documents for Lighthouse Smart Vault...";
      "Error creating documents: [Errno 13] Permission denied: 'documents/Life_Insurance_Policy.pdf'";
      "Please ensure ReportLab is installed: pip install reportlab" ] /\
  exists ks wk, run_builders toy_render ks (prelude w_readonly).1 = (wk, inr tt).
Proof.
  split_and!; [vm_compute; reflexivity..|].
  destruct (printed_lines_of_a_run toy_render w_readonly (prelude w_readonly).1)
    as (ks & wk & Hks & _); [vm_compute; reflexivity..|].
  by exists ks, wk.
Defined.

(** X8: A run opens for writing at most three files and only the three
    it names.  From a fresh trace a run whose prelude raises writes
    nothing; otherwise its writes are, in order, the full file of each
    builder that was called and succeeded and then, if the next builder
    raised after its save had opened its file, the part written of that
    file.  Every write goes to the path of a kind. *)
Theorem run_writes_at_most_three_files (render : renderer) w :
  trace w = [] ->
  (forall w1 e, prelude w = (w1, inl e) ->
     List.filter is_write (trace (run render w).1) = []) /\
  (forall w1, prelude w = (w1, inr tt) ->
     exists done,
       run_builders render done.*1 w1 = (built done w1, inr tt) /\
       Forall (rendered render w1) done /\
       ((done.*1 = build_sequence /\
         List.filter is_write (trace (run render w).1)
           = map (fun kp => EvWrite (output_path kp.1) kp.2) done) \/
        (exists k rest left e,
           build_sequence = done.*1 ++ k :: rest /\
           builder render k (built done w1)
             = (crashed k left (built done w1), inl e) /\
           List.filter is_write (trace (run render w).1)
             = map (fun kp => EvWrite (output_path kp.1) kp.2) done
               ++ crash_events k left))) /\
  length (List.filter is_write (trace (run render w).1)) <= 3 /\
  (forall p data, EvWrite p data ∈ trace (run render w).1 -> exists k, p = output_path k).
Proof.
  intros Hfresh.
  destruct (prelude w) as [w1 [e|[]]] eqn:Hpre.
  { assert (Htr : trace (run render w).1 = []).
    { rewrite run_eq, Hpre. simpl. by rewrite (prelude_fails _ _ _ Hpre), Hfresh. }
    rewrite Htr. simpl. split_and!; [done|by intros ? [=]|lia|].
    intros p data. by rewrite elem_of_nil. }
  destruct (prelude_printed _ _ Hfresh Hpre) as [_ Hw1].
  destruct (run_shape render _ _ Hpre)
    as (done & tail & Hall & Hpref & Hdone & Htr & Hend).
  assert (Hlen : length done <= 3).
  { apply prefix_length in Hpref. by rewrite length_fmap in Hpref. }
  assert (Hwrites : forall l,
    List.filter is_write tail = l ->
    List.filter is_write (trace (run render w).1)
      = map (fun kp => EvWrite (output_path kp.1) kp.2) done ++ l).
  { intros l <-. by rewrite Htr, !List.filter_app, Hw1, writes_built. }
  assert (Hcases :
    (done.*1 = build_sequence /\ List.filter is_write tail = []) \/
    (exists k rest left e,
       build_sequence = done.*1 ++ k :: rest /\
       builder render k (built done w1) = (crashed k left (built done w1), inl e) /\
       List.filter is_write tail = crash_events k left)).
  { destruct Hend as [(_ & Heq & -> & _)
                     |(e & k & rest & left & _ & Hseq & Hk & _ & [(_ & -> & _)|(_ & -> & _)])].
    - by left.
    - right. exists k, rest, left, e. split_and!; [done..|].
      rewrite List.filter_app, writes_crash. simpl. by rewrite app_nil_r.
    - right. exists k, rest, left, e. split_and!; [done..|]. apply writes_crash. }
  split_and!.
  - by intros ? ? [=].
  - intros ? [= <-]. exists done. split_and!; [done..|].
    destruct Hcases as [[Heq Ht]|(k & rest & left & e & Hseq & Hk & Ht)].
    + left. split; [done|]. by rewrite (Hwrites _ Ht), app_nil_r.
    + right. exists k, rest, left, e. split_and!; [done..|]. by apply Hwrites.
  - destruct Hcases as [[Heq Ht]|(k & rest & left & e & Hseq & Hk & Ht)];
      rewrite (Hwrites _ Ht), length_app, length_map.
    + simpl. lia.
    + apply (f_equal length) in Hseq. rewrite length_app, length_fmap in Hseq.
      simpl in Hseq. destruct left; simpl; lia.
  - intros p data. rewrite Htr, !elem_of_app. intros [Hin|[Hin|Hin]].
    + exfalso. revert Hin.
      destruct (prelude_cases _ _ Hfresh Hpre) as (_ & _ & [(_ & _ & ->)|(_ & _ & ->)]);
        rewrite ?elem_of_cons, elem_of_nil.
      * by intros [[=]|[]].
      * by intros [[=]|[[=]|[]]].
    + clear -Hin. induction done as [|[k pdf] done IH]; [by rewrite elem_of_nil in Hin|].
      change (flat_map _ ((k, pdf) :: done))
        with (build_events k pdf ++ flat_map (fun kp => build_events kp.1 kp.2) done) in Hin.
      rewrite elem_of_app in Hin. destruct Hin as [Hin|Hin]; [|by apply IH].
      revert Hin. unfold build_events. rewrite !elem_of_cons, elem_of_nil.
      intros [[= -> _]|[[=]|[]]]. by exists k.
    + assert (Hcrash : forall k left, EvWrite p data ∈ crash_events k left ->
                exists k', p = output_path k').
      { intros k [part|]; simpl; [|by rewrite elem_of_nil].
        rewrite elem_of_cons, elem_of_nil. intros [[= -> _]|[]]. by exists k. }
      destruct Hend as [(_ & _ & -> & _)
                       |(e & k & rest & left & _ & _ & _ & _ & [(_ & -> & _)|(_ & -> & _)])].
      * revert Hin. unfold report_events. rewrite !elem_of_cons, elem_of_nil.
        by intros [[=]|[[=]|[[=]|[]]]].
      * rewrite elem_of_app in Hin. destruct Hin as [Hin|Hin]; [by eapply Hcrash|].
        revert Hin. unfold handler_events. rewrite !elem_of_cons, elem_of_nil.
        by intros [[=]|[[=]|[]]].
      * by eapply Hcrash.
Qed.

Lemma run_writes_at_most_three_files_witness :
  trace w_fresh = [] /\
  prelude w_fresh = ((prelude w_fresh).1, inr tt) /\
  List.filter is_write (trace (run full_disk_render w_fresh).1)
    = [ EvWrite life_filename
          (pdf_header ++ bytes_of_string
             (String.concat newline (map flowable_text (life_story nov_3))));
        EvWrite will_filename pdf_header ] /\
  length (List.filter is_write (trace (run full_disk_render w_fresh).1)) <= 3.
Proof.
  split_and!; [vm_compute; reflexivity..|].
  by apply (run_writes_at_most_three_files full_disk_render w_fresh).
Defined.

(** ** Builds in another order, and a second run *)


Lemma builder_succeeds_at render k w pdf f' :
  render (clock w) (template_of k) (story_of k (clock w)) = inr pdf ->
  write_file (output_path k) pdf (fs w) = inr f' ->
  builder render k w = (built [(k, pdf)] w, inr tt).
Proof.
  intros Hr Hw. rewrite builder_unfold, Hr, Hw, (write_file_ok _ _ _ _ Hw).
  unfold emit, set_fs, built, build_events; simpl. by rewrite <- app_assoc.
Qed.



Lemma prelude_isdir w w1 :
  prelude w = (w1, inr tt) ->
  reportlab_installed w1 = true /\ isdir "documents" (fs w1) = true.
Proof.
  rewrite prelude_eq. destruct (reportlab_installed w) eqn:Hi; [|done].
  destruct (makedirs_exist_ok _ _) as [e|f'] eqn:Hmk; [done|].
  intros [= <-]; simpl. split; [done|].
  destruct (makedirs_cases _ _ Hmk) as [[Hd ->]|(_ & _ & _ & ->)]; [done|].
  apply isdir_set_documents.
Qed.

Lemma write_file_overwrite k data f :
  overwritable k f = true ->
  write_file (output_path k) data f
    = inr (set_entry (output_path k) (NFile true data) f).
Proof.
  intros Hw.
  destruct (write_file (output_path k) data f) as [e|f'] eqn:Hf;
    [|by rewrite (write_file_ok _ _ _ _ Hf)].
  exfalso. revert Hw Hf. unfold overwritable, write_file, open_wb.
  rewrite dirname_output, lookup_documents.
  destruct (entries f !! "documents") as [[b|? ?]|]; try done.
  by destruct (entries f !! output_path k) as [[?|[] ?]|].
Qed.

Lemma overwritable_built k j pdf w :
  overwritable j (fs w) = true ->
  overwritable j (fs (built [(k, pdf)] w)) = true.
Proof.
  unfold overwritable. simpl.
  rewrite (lookup_insert_ne _ (output_path k) "documents")
    by apply output_path_not_documents.
  destruct (entries (fs w) !! "documents") as [[b|? ?]|]; try done.
  destruct (decide (output_path k = output_path j)) as [->|Hne].
  - by rewrite lookup_insert_eq.
  - by rewrite lookup_insert_ne.
Qed.

(** Builders whose files exist and can be written all succeed when the
    layout engine does. *)
Lemma run_builders_overwrite render ks w :
  (forall k, k ∈ ks -> overwritable k (fs w) = true) ->
  (forall k, k ∈ ks ->
     exists pdf, render (clock w) (template_of k) (story_of k (clock w)) = inr pdf) ->
  exists done,
    done.*1 = ks /\ Forall (rendered render w) done /\
    run_builders render ks w = (built done w, inr tt).
Proof.
  revert w. induction ks as [|k ks IH]; intros w Hw Hr.
  - exists []. by rewrite built_nil.
  - destruct (Hr k) as [pdf Hpdf]; [by left|].
    destruct (IH (built [(k, pdf)] w)) as (done & Hdone & Hall & Hrun).
    + intros j Hj. apply overwritable_built, Hw. by right.
    + intros j Hj. apply Hr. by right.
    + exists ((k, pdf) :: done). split_and!.
      * rewrite fmap_cons. by f_equal.
      * constructor; [done|]. eapply Forall_impl; [exact Hall|].
        intros [k' pdf'] H. exact H.
      * simpl. unfold mbind, M_bind, bind.
        rewrite (builder_succeeds_at render k w pdf _ Hpdf
                   (write_file_overwrite k pdf (fs w) (Hw k ltac:(by left)))).
        by rewrite (built_cons _ done).
Qed.

Lemma built_same_names (done : list (kind * list Byte.byte)) w p :
  (forall k, k ∈ done.*1 -> is_Some (entries (fs w) !! output_path k)) ->
  is_Some (entries (fs (built done w)) !! p) <-> is_Some (entries (fs w) !! p).
Proof.
  revert w. induction done as [|[k pdf] done IH]; intros w Hk; [done|].
  rewrite built_cons, IH.
  - simpl. rewrite lookup_insert_is_Some'. split; [|by right].
    intros [<-|?]; [|done]. apply Hk. rewrite fmap_cons. by left.
  - intros j Hj. simpl. rewrite lookup_insert_is_Some'. right. apply Hk.
    rewrite fmap_cons. by right.
Qed.

(** X10: Running the script a second time.  After a run in which all three
    builds succeeded, a new run on the file system it left, at any later
    time at which the layout engine accepts the three stories, ends
    normally with all three built again: it creates no directory, adds no
    name to the file system and removes none, and each of the three paths
    holds the bytes of the new render. *)
Theorem second_run_overwrites_in_place (render : renderer) w w1 w2 t' :
  prelude w = (w1, inr tt) ->
  run_builders render build_sequence w1 = (w2, inr tt) ->
  (forall k, exists pdf, render t' (template_of k) (story_of k t') = inr pdf) ->
  exists w',
    run render (World (fs (run render w).1) t' true []) = (w', Finished) /\
    List.filter is_mkdir (trace w') = [] /\
    List.filter is_error_report (trace w') = [] /\
    length (List.filter is_write (trace w')) = 3 /\
    (forall p, is_Some (entries (fs w') !! p)
               <-> is_Some (entries (fs (run render w).1) !! p)) /\
    (forall k, exists pdf,
       render t' (template_of k) (story_of k t') = inr pdf /\
       entries (fs w') !! output_path k = Some (NFile true pdf)).
Proof.
  intros Hpre Hrun Hrender.
  assert (Hfs : fs (run render w).1 = fs w2).
  { by rewrite run_eq, Hpre, try_body_eq, Hrun. }
  rewrite Hfs.
  destruct (run_builders_ok _ _ _ _ Hrun) as (done & -> & _ & Hdone).
  destruct (prelude_isdir _ _ Hpre) as [_ Hdir].
  assert (Hnd : NoDup build_sequence) by by apply (bool_decide_unpack _).
  assert (Hall_in : forall k, k ∈ build_sequence) by (intros []; by apply (bool_decide_unpack _)).
  assert (Hdoc : exists b, entries (fs (built done w1)) !! "documents" = Some (NDir b)).
  { rewrite built_lookup_documents. revert Hdir. unfold isdir.
    destruct (entries (fs w1) !! "documents") as [[b|? ?]|]; [by eexists|done..]. }
  destruct Hdoc as [b Hdoc].
  assert (Hown : forall k, exists pdf,
            entries (fs (built done w1)) !! output_path k = Some (NFile true pdf)).
  { intros k. destruct (built_lookup_own done w1 k) as (pdf & _ & Hl).
    - by rewrite Hdone.
    - rewrite Hdone. apply Hall_in.
    - by exists pdf. }
  remember (fs (built done w1)) as f2 eqn:Hf2. clear Hf2.
  set (again := World f2 t' true []).
  set (w1' := World f2 t' true
                [EvPrint "Creating mock documents for Lighthouse Smart Vault..."]).
  assert (Hpre' : prelude again = (w1', inr tt)).
  { rewrite prelude_eq. unfold again, makedirs_exist_ok, mkdir, isdir. simpl.
    by rewrite Hdoc. }
  destruct (run_builders_overwrite render build_sequence w1') as (done' & Hdone' & Hall' & Hrun').
  { intros k _. unfold overwritable. simpl. rewrite Hdoc.
    destruct (Hown k) as [pdf ->]. done. }
  { intros k _. apply Hrender. }
  exists (World (fs (built done' w1')) t' true (trace (built done' w1') ++ report_events)).
  split_and!.
  - by rewrite run_eq, Hpre', try_body_eq, Hrun'.
  - simpl. rewrite !List.filter_app. simpl. rewrite app_nil_r.
    apply filter_none. eapply Forall_impl; [apply built_events_no_report|].
    by intros ? (? & ? & ? & ?).
  - simpl. rewrite !List.filter_app. simpl. rewrite app_nil_r.
    apply filter_none. eapply Forall_impl; [apply built_events_no_report|].
    by intros ? (? & ? & ? & ?).
  - simpl. rewrite !List.filter_app, writes_built. simpl.
    rewrite app_nil_r, length_map. apply (f_equal length) in Hdone'.
    by rewrite length_fmap in Hdone'.
  - intros p. cbn [fs]. rewrite (built_same_names done' w1' p); [done|].
    intros k _. simpl. destruct (Hown k) as [pdf ->]. by eexists.
  - intros k. cbn [fs]. destruct (built_lookup_own done' w1' k) as (pdf & Hin & Hl).
    + by rewrite Hdone'.
    + rewrite Hdone'. apply Hall_in.
    + exists pdf. split; [|done]. rewrite Forall_forall in Hall'. exact (Hall' _ Hin).
Qed.

Lemma second_run_overwrites_in_place_witness :
  prelude w_fresh = ((prelude w_fresh).1, inr tt) /\
  run_builders toy_render build_sequence (prelude w_fresh).1
    = ((run_builders toy_render build_sequence (prelude w_fresh).1).1, inr tt) /\
  (forall k, exists pdf,
     toy_render nov_4 (template_of k) (story_of k nov_4) = inr pdf) /\
  exists w',
    run toy_render (World (fs (run toy_render w_fresh).1) nov_4 true [])
      = (w', Finished) /\
    List.filter is_mkdir (trace w') = [].
Proof.
  assert (Hr : forall k, exists pdf,
     toy_render nov_4 (template_of k) (story_of k nov_4) = inr pdf)
    by (intros k; eexists; reflexivity).
  split_and!; [vm_compute; reflexivity..|exact Hr|].
  destruct (second_run_overwrites_in_place toy_render w_fresh (prelude w_fresh).1
              (run_builders toy_render build_sequence (prelude w_fresh).1).1 nov_4)
    as (w' & Hrun & Hmk & _); [vm_compute; reflexivity..|exact Hr|].
  by exists w'.
Defined.


(** ** The policy date *)

Lemma decimal_inj n n' : Datetime.decimal n = Datetime.decimal n' -> n = n'.
Proof.
  unfold Datetime.decimal. intros H.
  apply (f_equal NilEmpty.uint_of_string) in H. rewrite !NilEmpty.usu in H.
  injection H as H. apply (f_equal Nat.of_uint) in H.
  by rewrite !DecimalNat.Unsigned.of_to in H.
Qed.

Lemma two_digits_inj n n' : Datetime.two_digits n = Datetime.two_digits n' -> n = n'.
Proof.
  assert (Hread : forall m,
    option_map Nat.of_uint (NilEmpty.uint_of_string (Datetime.two_digits m)) = Some m).
  { assert (H0 : forall u,
      NilEmpty.uint_of_string ("0" +:+ NilEmpty.string_of_uint u)
        = Some (Decimal.D0 u)).
    { intros u.
      change (uint_of_char "0"
                (NilEmpty.uint_of_string (NilEmpty.string_of_uint u))
              = Some (Decimal.D0 u)).
      by rewrite NilEmpty.usu. }
    intros m. unfold Datetime.two_digits, Datetime.decimal.
    destruct (Nat.ltb m 10); rewrite ?H0, ?NilEmpty.usu; unfold option_map; f_equal.
    - change (Nat.of_uint (Decimal.D0 (Nat.to_uint m)))
        with (Nat.of_uint (Nat.to_uint m)).
      apply DecimalNat.Unsigned.of_to.
    - apply DecimalNat.Unsigned.of_to. }
  intros H. pose proof (Hread n) as Hn. rewrite H, Hread in Hn. by injection Hn.
Qed.

Lemma two_digits_shape n :
  n < 100 -> exists a b, Datetime.two_digits n = String a (String b EmptyString).
Proof.
  intros Hn. do 100 (destruct n as [|n]; [by eexists _, _|]). lia.
Qed.

(** X11: The text of the policy date identifies the day.  For days of the
    month as datetime has them (below 100), strftime('%B %d, %Y') gives
    the same text for two datetimes exactly when their month, day and
    year agree, the time of day playing no part; and the stories of the
    life insurance policy built at two moments are equal exactly in that
    case. *)
Theorem policy_date_identifies_the_day (d d' : Datetime.datetime) :
  Datetime.day d < 100 ->
  Datetime.day d' < 100 ->
  (Datetime.strftime_B_d_Y d = Datetime.strftime_B_d_Y d' <->
   Datetime.month_of d = Datetime.month_of d' /\
   Datetime.day d = Datetime.day d' /\
   Datetime.year d = Datetime.year d') /\
  (story_of LifeInsurance d = story_of LifeInsurance d' <->
   Datetime.month_of d = Datetime.month_of d' /\
   Datetime.day d = Datetime.day d' /\
   Datetime.year d = Datetime.year d').
Proof.
  intros Hd Hd'.
  assert (Hfmt : Datetime.strftime_B_d_Y d = Datetime.strftime_B_d_Y d' <->
   Datetime.month_of d = Datetime.month_of d' /\
   Datetime.day d = Datetime.day d' /\
   Datetime.year d = Datetime.year d').
  { unfold Datetime.strftime_B_d_Y. split.
    - destruct (two_digits_shape _ Hd) as (a & b & Hs).
      destruct (two_digits_shape _ Hd') as (a' & b' & Hs').
      intros H. rewrite Hs, Hs' in H.
      assert (Hm : Datetime.month_of d = Datetime.month_of d' /\
                   a = a' /\ b = b' /\
                   Datetime.decimal (Datetime.year d)
                     = Datetime.decimal (Datetime.year d')).
      { destruct (Datetime.month_of d), (Datetime.month_of d');
          simpl in H; try discriminate H; by injection H. }
      destruct Hm as (Hm & -> & -> & Hy). split_and!; [done| |by apply decimal_inj].
      apply two_digits_inj. by rewrite Hs, Hs'.
    - by intros (-> & -> & ->). }
  split; [exact Hfmt|]. rewrite <- Hfmt. split.
  - simpl. unfold life_story, policy_data. intros H. by simplify_eq.
  - simpl. unfold life_story, policy_data. by intros ->.
Qed.

Lemma policy_date_identifies_the_day_witness :
  Datetime.day nov_3 < 100 /\
  Datetime.day nov_4 < 100 /\
  story_of LifeInsurance nov_3 <> story_of LifeInsurance nov_4.
Proof.
  assert (H3 : Datetime.day nov_3 < 100) by (simpl; lia).
  assert (H4 : Datetime.day nov_4 < 100) by (simpl; lia).
  split_and!; [done..|].
  intros Heq.
  apply (proj2 (policy_date_identifies_the_day nov_3 nov_4 H3 H4)) in Heq.
  destruct Heq as (_ & Hday & _). discriminate Hday.
Defined.

(** ** The hint to install ReportLab *)

Lemma hint_not_built (done : list (kind * list Byte.byte)) :
  EvPrint "Please ensure ReportLab is installed: pip install reportlab"
    ∉ flat_map (fun kp => build_events kp.1 kp.2) done.
Proof.
  induction done as [|[k pdf] done IH]; [apply not_elem_of_nil|].
  change (flat_map _ ((k, pdf) :: done))
    with (build_events k pdf ++ flat_map (fun kp => build_events kp.1 kp.2) done).
  rewrite elem_of_app. intros [Hin|Hin]; [|done].
  revert Hin. unfold build_events. rewrite !elem_of_cons, elem_of_nil.
  intros [[=]|[H|[]]]. by destruct k.
Qed.

(** X12: The hint to install ReportLab is never printed when ReportLab is
    missing.  Without ReportLab the run ends at the first import: the
    ModuleNotFoundError is raised before the try block is entered, so it
    is not caught although it is an Exception, the world is untouched (no
    directory, no banner, no hint) and the exit status is 1.  From a fresh
    trace the hint is printed exactly when the prelude succeeded, which
    needs ReportLab, and the try block then raised an Exception. *)
Theorem install_hint_needs_reportlab (render : renderer) w :
  (reportlab_installed w = false ->
   run render w = (w, Uncaught (module_not_found "reportlab")) /\
   catchable (module_not_found "reportlab") = true /\
   exit_status (run render w).2 = 1%Z) /\
  (trace w = [] ->
   (EvPrint "Please ensure ReportLab is installed: pip install reportlab"
      ∈ trace (run render w).1 <->
    exists w1 w2 e,
      prelude w = (w1, inr tt) /\ try_body render w1 = (w2, inl e) /\
      catchable e = true) /\
   (EvPrint "Please ensure ReportLab is installed: pip install reportlab"
      ∈ trace (run render w).1 -> reportlab_installed w = true)).
Proof.
  split.
  { intros Hi.
    assert (Hrun : run render w = (w, Uncaught (module_not_found "reportlab"))).
    { by rewrite run_eq, prelude_eq, Hi. }
    by rewrite Hrun. }
  intros Hfresh.
  assert (Hiff :
    EvPrint "Please ensure ReportLab is installed: pip install reportlab"
      ∈ trace (run render w).1 <->
    exists w1 w2 e,
      prelude w = (w1, inr tt) /\ try_body render w1 = (w2, inl e) /\
      catchable e = true).
  { split.
    - destruct (prelude w) as [w1 [e|[]]] eqn:Hpre.
      { rewrite run_eq, Hpre. simpl. rewrite (prelude_fails _ _ _ Hpre), Hfresh.
        by rewrite elem_of_nil. }
      destruct (run_shape render _ _ Hpre) as (done & tail & _ & _ & _ & Htr & Hend).
      rewrite Htr, !elem_of_app. intros [Hin|[Hin|Hin]].
      + revert Hin.
        destruct (prelude_cases _ _ Hfresh Hpre) as (_ & _ & [(_ & _ & ->)|(_ & _ & ->)]);
          rewrite !elem_of_cons, elem_of_nil.
        * by intros [[=]|[]].
        * by intros [[=]|[[=]|[]]].
      + by apply hint_not_built in Hin.
      + destruct Hend as [(_ & _ & -> & _)
                         |(e & k & rest & left & Hrun & _ & _ & _ & [(Hc & _)|(_ & -> & _)])].
        * revert Hin. unfold report_events. rewrite !elem_of_cons, elem_of_nil.
          by intros [[=]|[[=]|[[=]|[]]]].
        * exists w1, (crashed k left (built done w1)), e. split_and!; [done| |done].
          by rewrite try_body_eq, Hrun.
        * exfalso. revert Hin. destruct left; simpl;
            rewrite ?elem_of_cons, elem_of_nil; [by intros [[=]|[]]|done].
    - intros (w1 & w2 & e & Hpre & Hbody & Hc).
      rewrite run_eq, Hpre, Hbody, Hc. simpl. rewrite elem_of_app. right.
      unfold handler_events. rewrite !elem_of_cons. by right; left. }
  split; [exact Hiff|]. intros (w1 & _ & _ & Hpre & _)%Hiff.
  revert Hpre. rewrite prelude_eq. by destruct (reportlab_installed w).
Qed.

Lemma install_hint_needs_reportlab_witness :
  reportlab_installed w_no_reportlab = false /\
  run toy_render w_no_reportlab
    = (w_no_reportlab, Uncaught (module_not_found "reportlab")).
Proof.
  split; [reflexivity|].
  by apply (proj1 (install_hint_needs_reportlab toy_render w_no_reportlab)).
Defined.

End Runs.
